(** * Sender / receiver demo services: request forwarding and telemetry

    A shallow embedding of the two FastAPI services of the repository
    (apps/demo-app/sender/app.py and apps/demo-app/receiver/app.py, and their
    older variants demo-app/sender/app.py and demo-app/receiver/app.py)
    together with the properties of their request pipeline.

    A handler is a computation that emits, in program order, the calls it
    makes on its collaborators (spans, instruments, the logger, the event
    loop, the random generator, the HTTP client) and either returns a value
    or raises.  What the collaborators answer (the random draw, the clock,
    the response of the receiver) is an input of the run. *)

From Stdlib Require Import QArith.
From stdpp Require Import gmap strings list pretty.

Close Scope Q_scope.
Open Scope Z_scope.

(** ** Python values *)

(** The values that flow through the handlers: decoded JSON bodies, span
    attribute values and the dictionaries the handlers build.  A Python
    float is the rational it denotes; a dict is the list of its items in
    insertion order. *)
#[local] Unset Elimination Schemes.
Inductive pyval : Type :=
| PNone
| PBool (b : bool)
| PInt (n : Z)
| PFloat (x : Q)
| PStr (s : string)
| PList (l : list pyval)
| PDict (d : list (string * pyval)).
#[local] Set Elimination Schemes.

Definition pydict : Type := list (string * pyval).

(** [d[k]] when present. *)
Fixpoint dict_lookup (d : pydict) (k : string) : option pyval :=
  match d with
  | [] => None
  | (k', v) :: d' => if String.eqb k' k then Some v else dict_lookup d' k
  end.

(** [d.get(k, default)]. *)
Definition dict_get (d : pydict) (k : string) (default : pyval) : pyval :=
  match dict_lookup d k with
  | Some v => v
  | None => default
  end.

(** Truthiness of a dict: it is not empty. *)
Definition dict_truthy (d : pydict) : bool :=
  match d with [] => false | _ :: _ => true end.

(** Truthiness of a str or bytes value. *)
Definition str_truthy (s : string) : bool :=
  match s with EmptyString => false | String _ _ => true end.

(** [x or d] for an optional string: [None] and the empty string are falsy. *)
Definition str_or (x : option string) (d : string) : string :=
  match x with
  | Some s => if str_truthy s then s else d
  | None => d
  end.

(** [x or d] for an optional int: [None] and [0] are falsy. *)
Definition int_or (x : option Z) (d : Z) : Z :=
  match x with
  | Some n => if n =? 0 then d else n
  | None => d
  end.

Definition len (s : string) : Z := Z.of_nat (String.length s).

(** [a < b] on floats, as a boolean. *)
Definition Qltb (a b : Q) : bool := negb (Qle_bool b a).

(** ** Exceptions *)

(** The exception classes the handlers tell apart in their [except]
    clauses.  Exceptions raised by libraries carry the text [str(e)]
    gives. *)
Inductive exn : Type :=
| HTTPException (status_code : Z) (detail : string) (* fastapi.HTTPException *)
| HTTPError (msg : string)       (* httpx.HTTPError and its subclasses *)
| ValueError (msg : string)      (* ValueError, json.JSONDecodeError included *)
| OtherException (msg : string)  (* any other subclass of Exception *)
| CancelledError.                (* a BaseException that is not an Exception *)

(** [str(e)]. *)
Definition exn_str (e : exn) : string :=
  match e with
  | HTTPException sc d => pretty sc +:+ ": " +:+ d
  | HTTPError m | ValueError m | OtherException m => m
  | CancelledError => ""
  end.

(** [isinstance(e, Exception)]. *)
Definition is_Exception (e : exn) : bool :=
  match e with CancelledError => false | _ => true end.

(** ** Telemetry calls *)

Inductive span_kind := INTERNAL | CLIENT.

(** The span a call acts on: the span that is current when the handler
    starts (opened by the FastAPI instrumentation), or a span the handler
    opened itself under the given name. *)
Inductive span_ref :=
| CurrentSpan
| Named (name : string).

(** [trace.Status(StatusCode.OK)] and [trace.Status(StatusCode.ERROR, msg)]. *)
Inductive status :=
| StatusOK
| StatusERROR (description : string).

Inductive log_level := DEBUG | INFO | ERROR.

(** The instruments created at module level, under the names of the
    variables that hold them. *)
Inductive instrument :=
| http_server_request_duration
| http_server_active_requests
| http_server_request_body_size
| http_server_response_body_size
| http_client_request_duration
| http_client_active_requests
| http_client_request_body_size
| http_client_response_body_size
| requests_total
| request_duration
| errors_total
| processing_time.

Inductive attr_value :=
| AStr (s : string)
| AInt (n : Z).

(** An attribute dict passed to an instrument. *)
Definition attributes : Type := list (string * attr_value).

Inductive event : Type :=
| EvSpanStart (name : string) (kind : span_kind)
| EvSpanEnd (name : string)
| EvSetAttribute (sp : span_ref) (key : string) (value : pyval)
| EvSetStatus (sp : span_ref) (st : status)
| EvRecordException (sp : span_ref) (e : exn)
| EvLog (level : log_level) (msg : string) (extra : pydict) (exc_info : bool)
| EvSleep (seconds : Q)
| EvRandom (draw : Q)
| EvAdd (i : instrument) (amount : Z) (attrs : attributes)
| EvRecord (i : instrument) (value : Q) (attrs : attributes)
| EvJsonDumps (obj : pyval)
| EvPost (url : string) (json : pyval) (timeout : Q).

#[global] Instance instrument_eq_dec : EqDecision instrument.
Proof. solve_decision. Defined.
#[global] Instance attr_value_eq_dec : EqDecision attr_value.
Proof. solve_decision. Defined.
#[global] Instance attr_value_countable : Countable attr_value.
Proof.
  refine (inj_countable'
            (fun a => match a with AStr s => inl s | AInt n => inr n end)
            (fun x => match x with inl s => AStr s | inr n => AInt n end) _).
  by intros [].
Defined.
#[global] Instance span_ref_eq_dec : EqDecision span_ref.
Proof. solve_decision. Defined.

(** ** Computations *)

(** A computation over local variables [S]: from the locals it starts
    with, the calls it makes, the locals it ends with, and its return value
    or the exception it raises. *)
Definition result (A : Type) : Type := (exn + A)%type.
Definition M (S A : Type) : Type := S -> list event * S * result A.

Section Monad.
Context {S : Type}.

Definition ret {A} (a : A) : M S A := fun s => ([], s, inr a).

Definition bind {A B} (m : M S A) (k : A -> M S B) : M S B :=
  fun s =>
    match m s with
    | (t1, s1, inl e) => (t1, s1, inl e)
    | (t1, s1, inr a) =>
        match k a s1 with
        | (t2, s2, r) => (t1 ++ t2, s2, r)
        end
    end.

Definition emit (e : event) : M S unit := fun s => ([e], s, inr tt).
Definition raise {A} (e : exn) : M S A := fun s => ([], s, inl e).
Definition get : M S S := fun s => ([], s, inr s).
Definition modify (f : S -> S) : M S unit := fun s => ([], f s, inr tt).

(** [if c: body]. *)
Definition when (c : bool) (body : M S unit) : M S unit :=
  if c then body else ret tt.

(** [try: body / except ... as e: handler e].  The handler chooses by the
    class of [e]; an exception no clause matches is raised again by it. *)
Definition try_except {A} (body : M S A) (handler : exn -> M S A) : M S A :=
  fun s =>
    match body s with
    | (t1, s1, inl e) =>
        match handler e s1 with
        | (t2, s2, r) => (t1 ++ t2, s2, r)
        end
    | (t1, s1, inr a) => (t1, s1, inr a)
    end.

(** [try: body / finally: fin].  [fin] runs on every exit of [body]; the
    outcome of [body] stands unless [fin] itself raises. *)
Definition try_finally {A} (body : M S A) (fin : M S unit) : M S A :=
  fun s =>
    match body s with
    | (t1, s1, r) =>
        match fin s1 with
        | (t2, s2, inl e) => (t1 ++ t2, s2, inl e)
        | (t2, s2, inr _) => (t1 ++ t2, s2, r)
        end
    end.

(** A block with local variables of its own, initialised to [init]. *)
Definition with_locals {S' A} (init : S') (m : M S' A) : M S A :=
  fun s =>
    match m init with
    | (t, _, r) => (t, s, r)
    end.

(** Awaiting something whose calls and outcome are already known. *)
Definition await {A} (c : list event * result A) : M S A :=
  fun s => (fst c, s, snd c).

(** An operation of a library that returns or raises. *)
Definition from_result {A} (r : result A) : M S A := fun s => ([], s, r).

Definition set_attribute (sp : span_ref) (k : string) (v : pyval) : M S unit :=
  emit (EvSetAttribute sp k v).
Definition set_status (sp : span_ref) (st : status) : M S unit :=
  emit (EvSetStatus sp st).
Definition record_exception (sp : span_ref) (e : exn) : M S unit :=
  emit (EvRecordException sp e).
Definition log (lv : log_level) (msg : string) (extra : pydict)
    (exc_info : bool) : M S unit :=
  emit (EvLog lv msg extra exc_info).
Definition sleep (seconds : Q) : M S unit := emit (EvSleep seconds).

(** [with tracer.start_as_current_span(name, kind=kind) as span: body].
    The span is ended on every exit of the block.  What the tracer itself
    notes on the span when an exception leaves the block is no call of this
    code and is not listed. *)
Definition with_span {A} (name : string) (kind : span_kind) (body : M S A)
    : M S A :=
  bind (emit (EvSpanStart name kind))
       (fun _ => try_finally body (emit (EvSpanEnd name))).
End Monad.

#[global] Instance M_ret {S} : MRet (M S) := @ret S.
#[global] Instance M_bind {S} : MBind (M S) := fun A B k m => bind m k.

(** The calls and the outcome of a whole run. *)
Definition run {A} (m : M unit A) : list event * result A :=
  match m tt with
  | (t, _, r) => (t, r)
  end.

(** What FastAPI answers for a handler: status 200 with the returned value
    as JSON body, the status code of an [HTTPException], and 500 for any
    other exception. *)
Definition response_status {A} (r : result A) : Z :=
  match r with
  | inr _ => 200
  | inl (HTTPException sc _) => sc
  | inl _ => 500
  end.

(** ** Reading a run *)

(** The status the code last set on a span. *)
Fixpoint last_status (tr : list event) (sp : span_ref) : option status :=
  match tr with
  | [] => None
  | e :: tr' =>
      match last_status tr' sp with
      | Some st => Some st
      | None =>
          match e with
          | EvSetStatus sp' st => if decide (sp' = sp) then Some st else None
          | _ => None
          end
      end
  end.

(** The exceptions recorded on a span, oldest first. *)
Fixpoint recorded_exceptions (tr : list event) (sp : span_ref) : list exn :=
  match tr with
  | [] => []
  | EvRecordException sp' e :: tr' =>
      if decide (sp' = sp) then e :: recorded_exceptions tr' sp
      else recorded_exceptions tr' sp
  | _ :: tr' => recorded_exceptions tr' sp
  end.

Definition is_post (e : event) : bool :=
  match e with EvPost _ _ _ => true | _ => false end.

(** An outbound call was issued during the run. *)
Definition call_issued (tr : list event) : bool := existsb is_post tr.

(** The sums kept by an up-down counter, one per attribute set. *)
Definition gauge_add (k : attributes) (amount : Z) (g : gmap attributes Z)
    : gmap attributes Z :=
  <[k := default 0 (g !! k) + amount]> g.

Definition gauge_value (g : gmap attributes Z) (k : attributes) : Z :=
  default 0 (g !! k).

(** The effect of one call on the sums of instrument [i]. *)
Definition gauge_step (i : instrument) (g : gmap attributes Z) (e : event)
    : gmap attributes Z :=
  match e with
  | EvAdd i' amount k => if decide (i' = i) then gauge_add k amount g else g
  | _ => g
  end.

Definition gauge_after (i : instrument) (tr : list event)
    (g : gmap attributes Z) : gmap attributes Z :=
  fold_left (gauge_step i) tr g.

(** The calls of a run that touch instrument [i]. *)
Definition touches (i : instrument) (e : event) : bool :=
  match e with
  | EvAdd i' _ _ | EvRecord i' _ _ => bool_decide (i' = i)
  | _ => false
  end.

(** ** Configuration *)

(** The module-level settings read from the environment at start-up; the
    error rate is a finite float. *)
Record Config := {
  SERVICE_NAME : string;
  TENANT_ID : string;
  RECEIVER_SERVICE_URL : string;
  ERROR_RATE : Q;
  LATENCY_MS : Z;
  PROCESSING_TIME_MS : Z;
}.

(** ** HTTPServerMetricsMiddleware *)

(** The class is the same in apps/demo-app/sender/app.py and
    apps/demo-app/receiver/app.py; the service name it falls back on comes
    from the configuration of the service. *)

Module Middleware.

(** What [dispatch] reads of the incoming request. *)
Record Request := {
  url_hostname : option string;
  url_port : option Z;
  url_scheme : string;
  method : string;
  url_path : string;
  content_length : option string; (* request.headers.get("content-length") *)
}.

(** What [dispatch] reads of the response of [call_next]; [None] stands
    for an attribute the response object does not have. *)
Record Response := {
  status_code : Z;
  body : option string;
  content : option string;
}.

(** The two readings of [time.time()]. *)
Record Clock := {
  now_at_entry : Q;
  now_at_exit : Q;
}.

(** The variables assigned in the [try] block and read in [finally]. *)
Record locals := {
  l_status_code : Z;
  l_response_body_size : option Z;
}.

Definition set_status_code (sc : Z) (l : locals) : locals :=
  {| l_status_code := sc; l_response_body_size := l_response_body_size l |}.
Definition set_response_body_size (n : Z) (l : locals) : locals :=
  {| l_status_code := l_status_code l; l_response_body_size := Some n |}.

(** [hasattr(response, a) and response.a]. *)
Definition has_truthy (a : option string) : bool :=
  match a with Some b => str_truthy b | None => false end.

Section Dispatch.
(** Python's [int] on a header value; [None] when it raises
    [ValueError]. *)
Variable py_int : string -> option Z.
Variable cfg : Config.
Variable clock : Clock.

Definition active_requests_key (request : Request) : attributes :=
  [ ("server.address", AStr (str_or (url_hostname request) (SERVICE_NAME cfg)));
    ("server.port", AInt (int_or (url_port request) 8000));
    ("http.request.method", AStr (method request));
    ("url.scheme", AStr (url_scheme request));
    ("http.route", AStr (url_path request)) ].

Definition duration_attributes (request : Request) (sc : Z) : attributes :=
  [ ("http.request.method", AStr (method request));
    ("http.response.status_code", AInt sc);
    ("server.address", AStr (str_or (url_hostname request) (SERVICE_NAME cfg)));
    ("server.port", AInt (int_or (url_port request) 8000));
    ("url.scheme", AStr (url_scheme request));
    ("http.route", AStr (url_path request)) ].

Definition dispatch (request : Request)
    (call_next : list event * result Response) : M unit Response :=
  let start_time := now_at_entry clock in
  let request_body_size :=
    match content_length request with
    | Some h => if str_truthy h then py_int h else None
    | None => None
    end in
  emit (EvAdd http_server_active_requests 1 (active_requests_key request));;
  with_locals {| l_status_code := 500; l_response_body_size := None |}
    (try_finally
       (try_except
          (response ← await call_next;
           modify (set_status_code (status_code response));;
           (if has_truthy (body response) then
              modify (set_response_body_size (len (default "" (body response))))
            else if has_truthy (content response) then
              modify (set_response_body_size (len (default "" (content response))))
            else mret tt);;
           mret response)
          (fun e =>
             match e with
             | HTTPException sc _ => modify (set_status_code sc);; raise e
             | _ =>
                 if is_Exception e
                 then modify (set_status_code 500);; raise e
                 else raise e
             end))
       (emit (EvAdd http_server_active_requests (-1)
                (active_requests_key request));;
        let duration := (now_at_exit clock - start_time)%Q in
        l ← get;
        let attributes := duration_attributes request (l_status_code l) in
        emit (EvRecord http_server_request_duration duration attributes);;
        match request_body_size with
        | Some n =>
            when (0 <? n)
              (emit (EvRecord http_server_request_body_size (inject_Z n)
                       attributes))
        | None => mret tt
        end;;
        match l_response_body_size l with
        | Some n =>
            when (0 <? n)
              (emit (EvRecord http_server_response_body_size (inject_Z n)
                       attributes))
        | None => mret tt
        end)).
End Dispatch.
End Middleware.

(** ** Sender service: apps/demo-app/sender/app.py *)

Module Sender.

(** [urlparse(RECEIVER_SERVICE_URL)]: reading [port] raises [ValueError]
    when the URL carries a port that is not a valid number. *)
Record ParseResult := {
  hostname : option string;
  port : result (option Z);
  scheme : string;
}.

(** The [httpx.Response] of the receiver: [content] is [None] when the
    object has no such attribute, [json] is the outcome of
    [response.json()]. *)
Record Response := {
  status_code : Z;
  content : option string;
  json : result pyval;
}.

(** What the collaborators answer during one request. *)
Record World := {
  current_span : bool;          (* truthiness of trace.get_current_span() *)
  random_random : Q;            (* random.random() *)
  client_post : result Response; (* await client.post(...) *)
  now_client_start : Q;         (* time.time() before the call *)
  now_client_end : Q;           (* time.time() in the finally block *)
}.

(** The variables assigned around the outbound call and read in its
    [finally] block. *)
Record locals := {
  request_body_size : option Z;
  response_body_size : option Z;
  client_status_code : Z;
}.

Definition set_request_body_size (n : Z) (l : locals) : locals :=
  {| request_body_size := Some n;
     response_body_size := response_body_size l;
     client_status_code := client_status_code l |}.
Definition set_response_body_size (n : Z) (l : locals) : locals :=
  {| request_body_size := request_body_size l;
     response_body_size := Some n;
     client_status_code := client_status_code l |}.
Definition set_client_status_code (sc : Z) (l : locals) : locals :=
  {| request_body_size := request_body_size l;
     response_body_size := response_body_size l;
     client_status_code := sc |}.

(** [data.get("request_id", "unknown") if data else "unknown"]. *)
Definition request_id_of (data : option pydict) : pyval :=
  match data with
  | Some d =>
      if dict_truthy d then dict_get d "request_id" (PStr "unknown")
      else PStr "unknown"
  | None => PStr "unknown"
  end.

(** [data or {}]. *)
Definition data_or_empty (data : option pydict) : pydict :=
  match data with
  | Some d => if dict_truthy d then d else []
  | None => []
  end.

Section Handler.
(** [json.dumps(obj).encode('utf-8')]. *)
Variable json_dumps : pyval -> string.
Variable urlparse : string -> ParseResult.
(** [str(e)] of the [HTTPStatusError] httpx builds for a response. *)
Variable status_error_str : Response -> string.
Variable cfg : Config.
Variable w : World.

(** [response.raise_for_status()]: raises [HTTPStatusError], a subclass
    of [httpx.HTTPError], for a status that is not 2xx (comment above
    the call in the source). *)
Definition raise_for_status {S} (response : Response) : M S unit :=
  if (200 <=? status_code response) && (status_code response <=? 299)
  then mret tt
  else raise (HTTPError (status_error_str response)).

(** [await client.post(url, json=payload)] on a client built with
    [httpx.AsyncClient(timeout=timeout)]. *)
Definition post {S} (url : string) (payload : pyval) (timeout : Q)
    : M S Response :=
  emit (EvPost url payload timeout);; from_result (client_post w).

Definition client_key (client_server_port : Z) : attributes :=
  let receiver_url := urlparse (RECEIVER_SERVICE_URL cfg) in
  [ ("server.address", AStr (str_or (hostname receiver_url) "receiver-service"));
    ("server.port", AInt client_server_port);
    ("http.request.method", AStr "POST");
    ("url.scheme", AStr (str_or (Some (scheme receiver_url)) "http"));
    ("http.route", AStr "/process") ].

Definition client_attributes (client_server_port sc : Z) : attributes :=
  let receiver_url := urlparse (RECEIVER_SERVICE_URL cfg) in
  [ ("http.request.method", AStr "POST");
    ("http.response.status_code", AInt sc);
    ("server.address", AStr (str_or (hostname receiver_url) "receiver-service"));
    ("server.port", AInt client_server_port);
    ("url.scheme", AStr (str_or (Some (scheme receiver_url)) "http"));
    ("http.route", AStr "/process") ].

(** The payload forwarded to the receiver. *)
Definition payload_of (data : option pydict) : pyval :=
  PDict [ ("request_id", request_id_of data);
          ("tenant_id", PStr (TENANT_ID cfg));
          ("sender", PStr (SERVICE_NAME cfg));
          ("data", PDict (data_or_empty data)) ].

Definition send_message (data : option pydict) : M unit pyval :=
  let current_span := current_span w in
  when current_span
    (set_attribute CurrentSpan "app.endpoint.type" (PStr "api");;
     set_attribute CurrentSpan "app.tenant.id" (PStr (TENANT_ID cfg)));;
  let request_id := request_id_of data in
  log INFO "Received request to send"
    [ ("request.id", request_id);
      ("tenant.id", PStr (TENANT_ID cfg));
      ("service.name", PStr (SERVICE_NAME cfg)) ] false;;
  (* Simulate artificial latency if configured *)
  when (0 <? LATENCY_MS cfg)
    (with_span "artificial_latency" INTERNAL
       (set_attribute (Named "artificial_latency") "app.latency.ms"
          (PInt (LATENCY_MS cfg));;
        sleep (inject_Z (LATENCY_MS cfg) / 1000)%Q));;
  (* Simulate errors if configured *)
  emit (EvRandom (random_random w));;
  if Qltb (random_random w) (ERROR_RATE cfg) then
    when current_span
      (set_status CurrentSpan (StatusERROR "Simulated error");;
       set_attribute CurrentSpan "error.type" (PStr "simulated_error");;
       set_attribute CurrentSpan "error.message"
         (PStr "Simulated error for testing"));;
    log ERROR "Simulated error occurred"
      [ ("request.id", request_id);
        ("tenant.id", PStr (TENANT_ID cfg));
        ("service.name", PStr (SERVICE_NAME cfg)) ] false;;
    raise (HTTPException 500 "Simulated error")
  else
  with_span "call_receiver" INTERNAL
    (let span := Named "call_receiver" in
     set_attribute span "app.tenant.id" (PStr (TENANT_ID cfg));;
     set_attribute span "app.request.id" request_id;;
     set_attribute span "peer.service" (PStr "receiver-service");;
     try_except
       (let receiver_url := urlparse (RECEIVER_SERVICE_URL cfg) in
        p ← from_result (port receiver_url);
        let client_server_port := int_or p 8000 in
        (* Increment active client requests *)
        emit (EvAdd http_client_active_requests 1
                (client_key client_server_port));;
        let client_start_time := now_client_start w in
        '(response, result) ←
          with_locals
            {| request_body_size := None;
               response_body_size := None;
               client_status_code := 500 |}
            (try_finally
               (let payload := payload_of data in
                (* Estimate request body size *)
                emit (EvJsonDumps payload);;
                modify (set_request_body_size (len (json_dumps payload)));;
                response ←
                  post (RECEIVER_SERVICE_URL cfg +:+ "/process") payload 10%Q;
                modify (set_client_status_code (status_code response));;
                match content response with
                | Some c => modify (set_response_body_size (len c))
                | None => mret tt
                end;;
                raise_for_status response;;
                result ←
                  try_except (from_result (json response))
                    (fun json_error =>
                       match json_error with
                       | ValueError _ =>
                           let error_msg :=
                             "Invalid JSON response from receiver: "
                             +:+ exn_str json_error in
                           record_exception span json_error;;
                           set_status span (StatusERROR error_msg);;
                           set_attribute span "error.type"
                             (PStr "json_decode_error");;
                           set_attribute span "error.message"
                             (PStr error_msg);;
                           log ERROR
                             "Failed to parse JSON response from receiver"
                             [ ("request.id", request_id);
                               ("tenant.id", PStr (TENANT_ID cfg));
                               ("error.message", PStr error_msg) ] true;;
                           raise (HTTPException 502 error_msg)
                       | _ => raise json_error
                       end);
                mret (response, result))
               ((* Decrement active client requests *)
                emit (EvAdd http_client_active_requests (-1)
                        (client_key client_server_port));;
                let client_duration :=
                  (now_client_end w - client_start_time)%Q in
                l ← get;
                let client_attributes :=
                  client_attributes client_server_port
                    (client_status_code l) in
                emit (EvRecord http_client_request_duration client_duration
                        client_attributes);;
                match request_body_size l with
                | Some n =>
                    when (0 <? n)
                      (emit (EvRecord http_client_request_body_size
                               (inject_Z n) client_attributes))
                | None => mret tt
                end;;
                match response_body_size l with
                | Some n =>
                    when (0 <? n)
                      (emit (EvRecord http_client_response_body_size
                               (inject_Z n) client_attributes))
                | None => mret tt
                end));
        (* Success path - only reached if no exceptions were raised *)
        set_attribute span "app.receiver.response.status"
          (PInt (status_code response));;
        set_status span StatusOK;;
        log INFO "Successfully forwarded request to receiver"
          [ ("request.id", request_id);
            ("tenant.id", PStr (TENANT_ID cfg));
            ("http.status_code", PInt (status_code response)) ] false;;
        mret (PDict [ ("status", PStr "success");
                      ("sender", PStr (SERVICE_NAME cfg));
                      ("tenant", PStr (TENANT_ID cfg));
                      ("receiver_response", result) ]))
       (fun e =>
          match e with
          | HTTPError _ =>
              record_exception span e;;
              set_status span (StatusERROR (exn_str e));;
              log ERROR "Failed to forward request to receiver"
                [ ("request.id", request_id);
                  ("tenant.id", PStr (TENANT_ID cfg));
                  ("error.message", PStr (exn_str e)) ] true;;
              raise (HTTPException 502
                       ("Receiver service error: " +:+ exn_str e))
          | HTTPException _ _ =>
              (* Re-raise HTTPException so FastAPI handles it properly *)
              raise e
          | ValueError _ | OtherException _ =>
              record_exception span e;;
              set_status span (StatusERROR (exn_str e));;
              log ERROR "Unexpected error"
                [ ("request.id", request_id);
                  ("tenant.id", PStr (TENANT_ID cfg));
                  ("error.message", PStr (exn_str e)) ] true;;
              raise (HTTPException 500 ("Internal error: " +:+ exn_str e))
          | CancelledError => raise e
          end)).
End Handler.
End Sender.

(** ** Receiver service: apps/demo-app/receiver/app.py *)

Module Receiver.

(** What the collaborators answer during one request. *)
Record World := {
  current_span : bool;      (* truthiness of trace.get_current_span() *)
  random_random : Q;        (* random.random() *)
  random_randint : Z;       (* random.randint(1, 10) *)
  database_await : result unit;
    (* outcome of awaiting inside simulate_database_call *)
  now_start : Q;            (* time.time() at the top of the handler *)
  now_processed : Q;        (* time.time() after the processing *)
}.

Section Handler.
Variable cfg : Config.
Variable w : World.

Definition simulate_database_call {S} (duration_ms : Z) : M S pyval :=
  with_span "database_query" CLIENT
    (let span := Named "database_query" in
     set_attribute span "db.system" (PStr "simulated");;
     set_attribute span "db.operation" (PStr "select");;
     set_attribute span "db.name" (PStr "demo_db");;
     set_attribute span "app.tenant.id" (PStr (TENANT_ID cfg));;
     (* Simulate database processing time *)
     sleep (inject_Z duration_ms / 1000)%Q;;
     from_result (database_await w);;
     let result :=
       [ ("records", PInt (random_randint w)); ("status", PStr "success") ] in
     set_attribute span "app.db.records.count" (PInt (random_randint w));;
     log DEBUG "Database query completed"
       [ ("tenant.id", PStr (TENANT_ID cfg));
         ("db.records.count", PInt (random_randint w)) ] false;;
     mret (PDict result)).

(** The structured result of a processed request. *)
Definition processed (request_id tenant_id sender db_result : pyval)
    (processing_duration : Q) : pyval :=
  PDict [ ("status", PStr "processed");
          ("request_id", request_id);
          ("tenant_id", tenant_id);
          ("sender", sender);
          ("receiver", PStr (SERVICE_NAME cfg));
          ("database_result", db_result);
          ("processing_time_seconds", PFloat processing_duration) ].

Definition process_request (data : pydict) : M unit pyval :=
  let current_span := current_span w in
  when current_span
    (set_attribute CurrentSpan "app.endpoint.type" (PStr "api"));;
  let start_time := now_start w in
  let request_id := dict_get data "request_id" (PStr "unknown") in
  let sender := dict_get data "sender" (PStr "unknown") in
  let tenant_id := dict_get data "tenant_id" (PStr (TENANT_ID cfg)) in
  when current_span
    (set_attribute CurrentSpan "app.tenant.id" tenant_id;;
     set_attribute CurrentSpan "app.request.id" request_id;;
     set_attribute CurrentSpan "app.sender.service" sender);;
  log INFO "Received request for processing"
    [ ("request.id", request_id);
      ("sender.service", sender);
      ("tenant.id", tenant_id);
      ("service.name", PStr (SERVICE_NAME cfg)) ] false;;
  (* Simulate artificial latency if configured *)
  when (0 <? LATENCY_MS cfg)
    (with_span "artificial_latency" INTERNAL
       (set_attribute (Named "artificial_latency") "app.latency.ms"
          (PInt (LATENCY_MS cfg));;
        sleep (inject_Z (LATENCY_MS cfg) / 1000)%Q));;
  (* Simulate errors if configured *)
  emit (EvRandom (random_random w));;
  if Qltb (random_random w) (ERROR_RATE cfg) then
    when current_span
      (set_status CurrentSpan (StatusERROR "Simulated error");;
       set_attribute CurrentSpan "error.type" (PStr "simulated_error");;
       set_attribute CurrentSpan "error.message"
         (PStr "Simulated error for testing"));;
    log ERROR "Simulated error occurred during processing"
      [ ("request.id", request_id);
        ("tenant.id", tenant_id);
        ("service.name", PStr (SERVICE_NAME cfg)) ] false;;
    raise (HTTPException 500 "Simulated processing error")
  else
  try_except
    (with_span "process_data" INTERNAL
       (let span := Named "process_data" in
        set_attribute span "app.request.id" request_id;;
        set_attribute span "app.tenant.id" tenant_id;;
        set_attribute span "app.sender.service" sender;;
        (* Simulate database call (creates child span) *)
        db_result ← simulate_database_call (PROCESSING_TIME_MS cfg);
        (* Additional processing simulation *)
        sleep (1 # 100)%Q;;
        let processing_duration := (now_processed w - start_time)%Q in
        let result :=
          processed request_id tenant_id sender db_result
            processing_duration in
        set_attribute span "app.processing.success" (PBool true);;
        set_attribute span "app.processing.duration_seconds"
          (PFloat processing_duration);;
        set_status span StatusOK;;
        (* Update server span with success status *)
        when current_span (set_status CurrentSpan StatusOK);;
        log INFO "Request processed successfully"
          [ ("request.id", request_id); ("tenant.id", tenant_id) ] false;;
        mret result))
    (fun e =>
       match e with
       | HTTPException _ _ => raise e
       | HTTPError _ | ValueError _ | OtherException _ =>
           (* span = trace.get_current_span(): the server span again *)
           when current_span
             (record_exception CurrentSpan e;;
              set_status CurrentSpan (StatusERROR (exn_str e)));;
           log ERROR "Unexpected error during processing"
             [ ("request.id", request_id);
               ("tenant.id", tenant_id);
               ("error.message", PStr (exn_str e)) ] true;;
           raise (HTTPException 500 ("Processing error: " +:+ exn_str e))
       | CancelledError => raise e
       end).
End Handler.
End Receiver.

(** ** Sender service, older variant: demo-app/sender/app.py *)

Module LegacySender.

(** What the collaborators answer during one request. *)
Record World := {
  current_span : bool;          (* truthiness of trace.get_current_span() *)
  span_context : option (string * string);
    (* the formatted trace and span ids when the span context is valid *)
  random_random : Q;            (* random.random() *)
  client_post : result Sender.Response; (* await client.post(...) *)
  now_start : Q;                (* time.time() at the top of the handler *)
  now_end : Q;                  (* time.time() when the duration is taken *)
}.

Section Handler.
Variable status_error_str : Sender.Response -> string.
Variable cfg : Config.
Variable w : World.

Definition get_trace_context : pydict :=
  if current_span w then
    match span_context w with
    | Some (trace_id, span_id) =>
        [ ("trace_id", PStr trace_id); ("span_id", PStr span_id) ]
    | None => []
    end
  else [].

Definition post {S} (url : string) (payload : pyval) (timeout : Q)
    : M S Sender.Response :=
  emit (EvPost url payload timeout);; from_result (client_post w).

Definition send_message (data : option pydict) : M unit pyval :=
  let current_span := current_span w in
  when current_span
    (set_attribute CurrentSpan "app.endpoint.type" (PStr "api");;
     set_attribute CurrentSpan "app.tenant.id" (PStr (TENANT_ID cfg)));;
  let start_time := now_start w in
  let request_id := Sender.request_id_of data in
  (* Add trace context to logs *)
  let trace_context := get_trace_context in
  log INFO "Received request to send"
    ([ ("request_id", request_id);
       ("tenant_id", PStr (TENANT_ID cfg));
       ("service", PStr (SERVICE_NAME cfg)) ] ++ trace_context) false;;
  (* Simulate artificial latency if configured *)
  when (0 <? LATENCY_MS cfg)
    (with_span "artificial_latency" INTERNAL
       (set_attribute (Named "artificial_latency") "app.latency.ms"
          (PInt (LATENCY_MS cfg));;
        sleep (inject_Z (LATENCY_MS cfg) / 1000)%Q));;
  (* Simulate errors if configured *)
  emit (EvRandom (random_random w));;
  if Qltb (random_random w) (ERROR_RATE cfg) then
    emit (EvAdd errors_total 1
            [ ("tenant_id", AStr (TENANT_ID cfg));
              ("service", AStr (SERVICE_NAME cfg));
              ("error_type", AStr "simulated") ]);;
    when current_span
      (set_status CurrentSpan (StatusERROR "Simulated error");;
       set_attribute CurrentSpan "error.type" (PStr "simulated_error");;
       set_attribute CurrentSpan "error.message"
         (PStr "Simulated error for testing"));;
    log ERROR "Simulated error occurred"
      ([ ("request_id", request_id);
         ("tenant_id", PStr (TENANT_ID cfg));
         ("service", PStr (SERVICE_NAME cfg)) ] ++ trace_context) false;;
    raise (HTTPException 500 "Simulated error")
  else
  with_span "call_receiver" INTERNAL
    (let span := Named "call_receiver" in
     set_attribute span "app.tenant.id" (PStr (TENANT_ID cfg));;
     set_attribute span "app.request.id" request_id;;
     set_attribute span "peer.service" (PStr "receiver-service");;
     try_except
       (let payload :=
          PDict [ ("request_id", request_id);
                  ("tenant_id", PStr (TENANT_ID cfg));
                  ("sender", PStr (SERVICE_NAME cfg));
                  ("data", PDict (Sender.data_or_empty data)) ] in
        response ←
          post (RECEIVER_SERVICE_URL cfg +:+ "/process") payload 10%Q;
        Sender.raise_for_status status_error_str response;;
        result ← from_result (Sender.json response);
        set_attribute span "app.receiver.response.status"
          (PInt (Sender.status_code response));;
        set_status span StatusOK;;
        log INFO "Successfully forwarded request to receiver"
          ([ ("request_id", request_id);
             ("tenant_id", PStr (TENANT_ID cfg));
             ("receiver_status", PInt (Sender.status_code response)) ]
           ++ trace_context) false;;
        let duration := (now_end w - start_time)%Q in
        emit (EvAdd requests_total 1
                [ ("tenant_id", AStr (TENANT_ID cfg));
                  ("service", AStr (SERVICE_NAME cfg));
                  ("status", AStr "success") ]);;
        emit (EvRecord request_duration duration
                [ ("tenant_id", AStr (TENANT_ID cfg));
                  ("service", AStr (SERVICE_NAME cfg)) ]);;
        mret (PDict [ ("status", PStr "success");
                      ("sender", PStr (SERVICE_NAME cfg));
                      ("tenant", PStr (TENANT_ID cfg));
                      ("receiver_response", result);
                      ("duration_seconds", PFloat duration) ]))
       (fun e =>
          match e with
          | HTTPError _ =>
              record_exception span e;;
              set_status span (StatusERROR (exn_str e));;
              emit (EvAdd errors_total 1
                      [ ("tenant_id", AStr (TENANT_ID cfg));
                        ("service", AStr (SERVICE_NAME cfg));
                        ("error_type", AStr "http_error") ]);;
              log ERROR "Failed to forward request to receiver"
                ([ ("request_id", request_id);
                   ("tenant_id", PStr (TENANT_ID cfg));
                   ("error", PStr (exn_str e)) ] ++ trace_context) true;;
              raise (HTTPException 502
                       ("Receiver service error: " +:+ exn_str e))
          | HTTPException _ _ | ValueError _ | OtherException _ =>
              record_exception span e;;
              set_status span (StatusERROR (exn_str e));;
              emit (EvAdd errors_total 1
                      [ ("tenant_id", AStr (TENANT_ID cfg));
                        ("service", AStr (SERVICE_NAME cfg));
                        ("error_type", AStr "unknown") ]);;
              log ERROR "Unexpected error"
                ([ ("request_id", request_id);
                   ("tenant_id", PStr (TENANT_ID cfg));
                   ("error", PStr (exn_str e)) ] ++ trace_context) true;;
              raise (HTTPException 500 ("Internal error: " +:+ exn_str e))
          | CancelledError => raise e
          end)).
End Handler.
End LegacySender.

(** ** Receiver service, older variant: demo-app/receiver/app.py *)

Module LegacyReceiver.

(** What the collaborators answer during one request. *)
Record World := {
  current_span : bool;      (* truthiness of trace.get_current_span() *)
  span_context : option (string * string);
    (* the formatted ids of the server span when its context is valid *)
  database_span_context : option (string * string);
    (* the same for the database_query span *)
  random_random : Q;        (* random.random() *)
  random_randint : Z;       (* random.randint(1, 10) *)
  database_await : result unit;
    (* outcome of awaiting inside simulate_database_call *)
  now_start : Q;            (* time.time() at the top of the handler *)
  now_processed : Q;        (* time.time() after the processing *)
  now_total : Q;            (* time.time() before returning *)
}.

Section Handler.
(** The attribute value the meter keeps for a Python value. *)
Variable metric_attr : pyval -> attr_value.
Variable cfg : Config.
Variable w : World.

(** [get_trace_context()] under a span that is truthy or not and has the
    given context. *)
Definition get_trace_context (span : bool) (ctx : option (string * string))
    : pydict :=
  if span then
    match ctx with
    | Some (trace_id, span_id) =>
        [ ("trace_id", PStr trace_id); ("span_id", PStr span_id) ]
    | None => []
    end
  else [].

Definition simulate_database_call {S} (duration_ms : Z) : M S pyval :=
  with_span "database_query" CLIENT
    (let span := Named "database_query" in
     set_attribute span "db.system" (PStr "simulated");;
     set_attribute span "db.operation" (PStr "select");;
     set_attribute span "db.name" (PStr "demo_db");;
     set_attribute span "app.tenant.id" (PStr (TENANT_ID cfg));;
     (* Simulate database processing time *)
     sleep (inject_Z duration_ms / 1000)%Q;;
     from_result (database_await w);;
     let result :=
       [ ("records", PInt (random_randint w)); ("status", PStr "success") ] in
     set_attribute span "app.db.records.count" (PInt (random_randint w));;
     log DEBUG "Database query completed"
       ([ ("tenant_id", PStr (TENANT_ID cfg));
          ("records", PInt (random_randint w)) ]
        ++ get_trace_context true (database_span_context w)) false;;
     mret (PDict result)).

Definition process_request (data : pydict) : M unit pyval :=
  let current_span := current_span w in
  when current_span
    (set_attribute CurrentSpan "app.endpoint.type" (PStr "api"));;
  let start_time := now_start w in
  let request_id := dict_get data "request_id" (PStr "unknown") in
  let sender := dict_get data "sender" (PStr "unknown") in
  let tenant_id := dict_get data "tenant_id" (PStr (TENANT_ID cfg)) in
  when current_span
    (set_attribute CurrentSpan "app.tenant.id" tenant_id;;
     set_attribute CurrentSpan "app.request.id" request_id;;
     set_attribute CurrentSpan "app.sender.service" sender);;
  (* Add trace context to logs *)
  let trace_context := get_trace_context current_span (span_context w) in
  log INFO "Received request for processing"
    ([ ("request_id", request_id);
       ("sender", sender);
       ("tenant_id", tenant_id);
       ("service", PStr (SERVICE_NAME cfg)) ] ++ trace_context) false;;
  (* Simulate artificial latency if configured *)
  when (0 <? LATENCY_MS cfg)
    (with_span "artificial_latency" INTERNAL
       (set_attribute (Named "artificial_latency") "app.latency.ms"
          (PInt (LATENCY_MS cfg));;
        sleep (inject_Z (LATENCY_MS cfg) / 1000)%Q));;
  (* Simulate errors if configured *)
  emit (EvRandom (random_random w));;
  if Qltb (random_random w) (ERROR_RATE cfg) then
    emit (EvAdd errors_total 1
            [ ("tenant_id", metric_attr tenant_id);
              ("service", AStr (SERVICE_NAME cfg));
              ("error_type", AStr "simulated") ]);;
    when current_span
      (set_status CurrentSpan (StatusERROR "Simulated error");;
       set_attribute CurrentSpan "error.type" (PStr "simulated_error");;
       set_attribute CurrentSpan "error.message"
         (PStr "Simulated error for testing"));;
    log ERROR "Simulated error occurred during processing"
      ([ ("request_id", request_id);
         ("tenant_id", tenant_id);
         ("service", PStr (SERVICE_NAME cfg)) ] ++ trace_context) false;;
    raise (HTTPException 500 "Simulated processing error")
  else
  try_except
    (with_span "process_data" INTERNAL
       (let span := Named "process_data" in
        set_attribute span "app.request.id" request_id;;
        set_attribute span "app.tenant.id" tenant_id;;
        set_attribute span "app.sender.service" sender;;
        (* Simulate database call (creates child span) *)
        db_result ← simulate_database_call (PROCESSING_TIME_MS cfg);
        (* Additional processing simulation *)
        sleep (1 # 100)%Q;;
        let processing_duration := (now_processed w - start_time)%Q in
        emit (EvRecord processing_time processing_duration
                [ ("tenant_id", metric_attr tenant_id);
                  ("service", AStr (SERVICE_NAME cfg)) ]);;
        let result :=
          PDict [ ("status", PStr "processed");
                  ("request_id", request_id);
                  ("tenant_id", tenant_id);
                  ("sender", sender);
                  ("receiver", PStr (SERVICE_NAME cfg));
                  ("database_result", db_result);
                  ("processing_time_seconds", PFloat processing_duration) ] in
        set_attribute span "app.processing.success" (PBool true);;
        set_attribute span "app.processing.duration_seconds"
          (PFloat processing_duration);;
        set_status span StatusOK;;
        (* Update server span with success status *)
        when current_span (set_status CurrentSpan StatusOK);;
        log INFO "Request processed successfully"
          ([ ("request_id", request_id);
             ("tenant_id", tenant_id);
             ("processing_time", PFloat processing_duration) ]
           ++ trace_context) false;;
        let total_duration := (now_total w - start_time)%Q in
        emit (EvAdd requests_total 1
                [ ("tenant_id", metric_attr tenant_id);
                  ("service", AStr (SERVICE_NAME cfg));
                  ("status", AStr "success") ]);;
        emit (EvRecord request_duration total_duration
                [ ("tenant_id", metric_attr tenant_id);
                  ("service", AStr (SERVICE_NAME cfg)) ]);;
        mret result))
    (fun e =>
       match e with
       | HTTPException _ _ => raise e
       | HTTPError _ | ValueError _ | OtherException _ =>
           (* span = trace.get_current_span(): the server span again *)
           when current_span
             (record_exception CurrentSpan e;;
              set_status CurrentSpan (StatusERROR (exn_str e)));;
           emit (EvAdd errors_total 1
                   [ ("tenant_id", metric_attr tenant_id);
                     ("service", AStr (SERVICE_NAME cfg));
                     ("error_type", AStr "unknown") ]);;
           log ERROR "Unexpected error during processing"
             ([ ("request_id", request_id);
                ("tenant_id", tenant_id);
                ("error", PStr (exn_str e)) ] ++ trace_context) true;;
           raise (HTTPException 500 ("Processing error: " +:+ exn_str e))
       | CancelledError => raise e
       end).
End Handler.
End LegacyReceiver.

(** ** Reading a run, continued *)

(** What [dispatch] has in hand when its [finally] block runs. *)
Module MiddlewareExit.
Import Middleware.

Section Exit.
Variable py_int : string -> option Z.
Variable cfg : Config.
Variable clock : Clock.

(** The status code held by [status_code] on exit. *)
Definition recorded_status (r : result Response) : Z :=
  match r with
  | inr response => status_code response
  | inl (HTTPException sc _) => sc
  | inl _ => 500
  end.

(** The value held by [response_body_size] on exit. *)
Definition recorded_response_size (r : result Response) : option Z :=
  match r with
  | inr response =>
      if has_truthy (body response)
      then Some (len (default "" (body response)))
      else if has_truthy (content response)
      then Some (len (default "" (content response)))
      else None
  | inl _ => None
  end.

(** The value held by [request_body_size]. *)
Definition recorded_request_size (request : Request) : option Z :=
  match content_length request with
  | Some h => if str_truthy h then py_int h else None
  | None => None
  end.

Definition size_record (i : instrument) (sz : option Z) (attrs : attributes)
    : list event :=
  match sz with
  | Some n => if 0 <? n then [EvRecord i (inject_Z n) attrs] else []
  | None => []
  end.

(** The calls of the [finally] block. *)
Definition exit_events (request : Request) (r : result Response)
    : list event :=
  let attrs := duration_attributes cfg request (recorded_status r) in
  EvAdd http_server_active_requests (-1) (active_requests_key cfg request)
  :: EvRecord http_server_request_duration
       (now_at_exit clock - now_at_entry clock)%Q attrs
  :: size_record http_server_request_body_size
       (recorded_request_size request) attrs
  ++ size_record http_server_response_body_size
       (recorded_response_size r) attrs.
End Exit.
End MiddlewareExit.

(** The value of an attribute in an attribute dict. *)
Fixpoint attr_lookup (attrs : attributes) (k : string) : option attr_value :=
  match attrs with
  | [] => None
  | (k', v) :: attrs' => if String.eqb k' k then Some v else attr_lookup attrs' k
  end.

(** The net amount the calls of a run add to instrument [i] under the
    attribute set [k]. *)
Fixpoint net_amount (i : instrument) (k : attributes) (tr : list event) : Z :=
  match tr with
  | [] => 0
  | EvAdd i' amount k' :: tr' =>
      (if decide (i' = i) then if decide (k' = k) then amount else 0 else 0)
      + net_amount i k tr'
  | _ :: tr' => net_amount i k tr'
  end.

(** The two steps of the handlers whose order is in question: the
    artificial delay, which runs in a span named artificial_latency, and
    the draw compared with the error rate. *)
Inductive phase := LatencyDelay | ErrorRateDraw.

Definition phase_of (e : event) : option phase :=
  match e with
  | EvSpanStart name _ =>
      if String.eqb name "artificial_latency" then Some LatencyDelay else None
  | EvRandom _ => Some ErrorRateDraw
  | _ => None
  end.

(** The phases of a run of a handler, in the order they happen. *)
Definition phases (tr : list event) : list phase := omap phase_of tr.

(** The [extra] of the first record logged with message [msg]. *)
Fixpoint logged (tr : list event) (msg : string) : option pydict :=
  match tr with
  | [] => None
  | EvLog _ msg' extra _ :: tr' =>
      if String.eqb msg' msg then Some extra else logged tr' msg
  | _ :: tr' => logged tr' msg
  end.

(** The calls that turn an object into JSON text: an explicit
    [json.dumps], and a [client.post(..., json=obj)], which hands the
    object itself to the client to be encoded as the request body. *)
Definition serializes (e : event) : bool :=
  match e with
  | EvJsonDumps _ | EvPost _ _ _ => true
  | _ => false
  end.

Definition serializations (tr : list event) : list event :=
  List.filter serializes tr.

(** The keys of a dict, in order. *)
Definition keys (v : pyval) : list string :=
  match v with
  | PDict d => d.*1
  | _ => []
  end.

(** The order both variants of [send_message] are compared with: the
    delay, when one is configured, then the draw. *)
Definition latency_then_draw (cfg : Config) : list phase :=
  (if 0 <? LATENCY_MS cfg then [LatencyDelay] else []) ++ [ErrorRateDraw].

(** A field of the payload the sender forwards. *)
Definition payload_field (cfg : Config) (data : option pydict) (k : string)
    : option pyval :=
  match Sender.payload_of cfg data with
  | PDict d => dict_lookup d k
  | _ => None
  end.

(** A field of the body a handler returns. *)
Definition body_field (r : result pyval) (k : string) : option pyval :=
  match r with
  | inr (PDict d) => dict_lookup d k
  | _ => None
  end.

(** Every call a computation makes satisfies [P], whatever its locals. *)
Definition emits_only {S A} (P : event -> Prop) (m : M S A) : Prop :=
  forall s, Forall P (m s).1.1.

(** ** Sample requests *)

(** Concrete configurations, requests and answers of the collaborators,
    used to run the handlers. *)
Module Example.

Definition sender_cfg : Config :=
  {| SERVICE_NAME := "sender-service";
     TENANT_ID := "tenant-a";
     RECEIVER_SERVICE_URL := "http://receiver-service:8000";
     ERROR_RATE := 0;
     LATENCY_MS := 200;
     PROCESSING_TIME_MS := 100 |}.

Definition receiver_cfg : Config :=
  {| SERVICE_NAME := "receiver-service";
     TENANT_ID := "tenant-b";
     RECEIVER_SERVICE_URL := "";
     ERROR_RATE := 0;
     LATENCY_MS := 0;
     PROCESSING_TIME_MS := 100 |}.

(** The same two services with ERROR_RATE=1.0. *)
Definition failing_sender_cfg : Config :=
  {| SERVICE_NAME := "sender-service";
     TENANT_ID := "tenant-a";
     RECEIVER_SERVICE_URL := "http://receiver-service:8000";
     ERROR_RATE := 1;
     LATENCY_MS := 200;
     PROCESSING_TIME_MS := 100 |}.

Definition failing_receiver_cfg : Config :=
  {| SERVICE_NAME := "receiver-service";
     TENANT_ID := "tenant-b";
     RECEIVER_SERVICE_URL := "";
     ERROR_RATE := 1;
     LATENCY_MS := 0;
     PROCESSING_TIME_MS := 100 |}.

(** Stands for the encoder: every object is 64 bytes long. *)
Definition json_dumps (obj : pyval) : string :=
  "0123456789abcdef0123456789abcdef0123456789abcdef0123456789abcdef".

Definition urlparse (url : string) : Sender.ParseResult :=
  {| Sender.hostname := Some "receiver-service";
     Sender.port := inr (Some 8000);
     Sender.scheme := "http" |}.

Definition status_error_str (response : Sender.Response) : string :=
  "Server error for url http://receiver-service:8000/process".

(** A body with a request id, and one without. *)
Definition data : option pydict :=
  Some [ ("request_id", PStr "req-1"); ("message", PStr "hello") ].

Definition data_without_request_id : option pydict :=
  Some [ ("message", PStr "hello") ].

(** What the sender forwards for [data], as the receiver decodes it. *)
Definition forwarded : pydict :=
  [ ("request_id", PStr "req-1");
    ("tenant_id", PStr "tenant-a");
    ("sender", PStr "sender-service");
    ("data", PDict [ ("request_id", PStr "req-1"); ("message", PStr "hello") ]) ].

(** A body that names neither the request, nor the tenant, nor the sender. *)
Definition bare : pydict := [ ("payload", PInt 1) ].

Definition processed_body : pyval :=
  PDict [ ("status", PStr "processed"); ("request_id", PStr "req-1") ].

(** The receiver answers 200 with a JSON body. *)
Definition response_ok : Sender.Response :=
  {| Sender.status_code := 200;
     Sender.content := Some "processed";
     Sender.json := inr processed_body |}.

Definition world_ok : Sender.World :=
  {| Sender.current_span := true;
     Sender.random_random := 1 # 2;
     Sender.client_post := inr response_ok;
     Sender.now_client_start := 10;
     Sender.now_client_end := 11 |}.

(** The receiver answers 200 with a body that is no JSON. *)
Definition response_malformed : Sender.Response :=
  {| Sender.status_code := 200;
     Sender.content := Some "<html>";
     Sender.json :=
       inl (ValueError "Expecting value: line 1 column 1 (char 0)") |}.

Definition world_malformed : Sender.World :=
  {| Sender.current_span := true;
     Sender.random_random := 1 # 2;
     Sender.client_post := inr response_malformed;
     Sender.now_client_start := 10;
     Sender.now_client_end := 11 |}.

(** The connection to the receiver is refused. *)
Definition world_refused : Sender.World :=
  {| Sender.current_span := true;
     Sender.random_random := 1 # 2;
     Sender.client_post := inl (HTTPError "All connection attempts failed");
     Sender.now_client_start := 10;
     Sender.now_client_end := 11 |}.

(** The same answers, seen by the older variant of the sender. *)
Definition legacy_world_ok : LegacySender.World :=
  {| LegacySender.current_span := true;
     LegacySender.span_context := Some ("0af7651916cd43dd8448eb211c80319c",
                                        "b7ad6b7169203331");
     LegacySender.random_random := 1 # 2;
     LegacySender.client_post := inr response_ok;
     LegacySender.now_start := 10;
     LegacySender.now_end := 11 |}.

Definition receiver_world : Receiver.World :=
  {| Receiver.current_span := true;
     Receiver.random_random := 1 # 2;
     Receiver.random_randint := 7;
     Receiver.database_await := inr tt;
     Receiver.now_start := 10;
     Receiver.now_processed := 10 + (11 # 100) |}.

Definition py_int (s : string) : option Z :=
  if String.eqb s "27" then Some 27 else None.

Definition request : Middleware.Request :=
  {| Middleware.url_hostname := Some "sender-service";
     Middleware.url_port := Some 8000;
     Middleware.url_scheme := "http";
     Middleware.method := "POST";
     Middleware.url_path := "/send";
     Middleware.content_length := Some "27" |}.

Definition clock : Middleware.Clock :=
  {| Middleware.now_at_entry := 10; Middleware.now_at_exit := 11 |}.

(** [call_next] for the sender: what FastAPI makes of the handler's
    outcome when it can (a returned value, an [HTTPException]); any other
    exception propagates. *)
Definition call_next (h : list event * result pyval)
    : list event * result Middleware.Response :=
  (h.1,
   match h.2 with
   | inr _ =>
       inr {| Middleware.status_code := 200;
              Middleware.body := None;
              Middleware.content := None |}
   | inl (HTTPException sc _) =>
       inr {| Middleware.status_code := sc;
              Middleware.body := None;
              Middleware.content := None |}
   | inl e => inl e
   end).

End Example.

(** ** Health and metrics endpoints *)

(** [health] and [prometheus_metrics], the same in both services and in
    both variants; [current_span] is the truthiness of
    [trace.get_current_span()]. *)
Module Endpoints.
Section Handlers.
Variable cfg : Config.
Variable current_span : bool.

Definition health : M unit pyval :=
  when current_span
    (set_attribute CurrentSpan "app.endpoint.type" (PStr "health");;
     set_attribute CurrentSpan "app.tenant.id" (PStr (TENANT_ID cfg)));;
  mret (PDict [ ("status", PStr "healthy");
                ("service", PStr (SERVICE_NAME cfg));
                ("tenant", PStr (TENANT_ID cfg)) ]).

Definition prometheus_metrics : M unit pyval :=
  when current_span
    (set_attribute CurrentSpan "app.endpoint.type" (PStr "metrics");;
     set_attribute CurrentSpan "app.tenant.id" (PStr (TENANT_ID cfg)));;
  mret (PDict [ ("message",
                  PStr "Use OpenTelemetry Collector to scrape OTLP metrics");
                ("service", PStr (SERVICE_NAME cfg));
                ("tenant", PStr (TENANT_ID cfg)) ]).
End Handlers.
End Endpoints.

(** ** Settings read from the environment *)

Module Settings.

(** [os.getenv(k, d)] on an environment. *)
Definition getenv (env : gmap string string) (k d : string) : string :=
  default d (env !! k).

Section Resolve.
(** [str.strip()]. *)
Variable strip : string -> string.

(** [s and s.strip()], as a condition. *)
Definition set_and_not_blank (s : string) : bool :=
  str_truthy s && str_truthy (strip s).

(** The OTLP endpoint of the four services (module level of each app.py). *)
Definition otlp_endpoint (env : gmap string string) : string :=
  let OTLP_ENDPOINT_ENV := getenv env "OTEL_EXPORTER_OTLP_ENDPOINT" "" in
  let NODE_IP := getenv env "NODE_IP" "" in
  let OTLP_PORT := getenv env "OTLP_PORT" "4317" in
  if set_and_not_blank OTLP_ENDPOINT_ENV then OTLP_ENDPOINT_ENV
  else if set_and_not_blank NODE_IP
  then "http://" +:+ NODE_IP +:+ ":" +:+ OTLP_PORT
  else "http://opentelemetry-collector.otel-collector.svc.cluster.local:4317".
End Resolve.

(** The settings of the load generator (loadgen/instrumentation.py). *)
Definition loadgen_otlp_endpoint (env : gmap string string) : string :=
  getenv env "OTEL_EXPORTER_OTLP_ENDPOINT"
    "http://opentelemetry-collector.otel-collector.svc.cluster.local:4317".

Definition k8s_namespace (env : gmap string string) : string :=
  getenv env "K8S_NAMESPACE" (getenv env "MY_POD_NAMESPACE" "default").

Definition k8s_pod_name (env : gmap string string) : string :=
  getenv env "K8S_POD_NAME" (getenv env "MY_POD_NAME" "unknown").

End Settings.

(** ** TraceContextFormatter *)

Module Formatter.

(** What the formatter reads of a log record: the fields of the format
    string, already rendered, and the two attributes the logging
    instrumentation may have added. *)
Record LogRecord := {
  asctime : string;
  name : string;
  levelname : string;
  message : string;
  otelTraceID : option string;
  otelSpanID : option string;
}.

(** [record.trace_id] and [record.span_id] as [format] sets them. *)
Definition trace_id (record : LogRecord) : string :=
  str_or (otelTraceID record) "".
Definition span_id (record : LogRecord) : string :=
  str_or (otelSpanID record) "".

(** [record.trace_context] as [format] sets it. *)
Definition trace_context (record : LogRecord) : string :=
  if str_truthy (trace_id record) && str_truthy (span_id record)
  then "[trace_id=" +:+ trace_id record +:+ " span_id=" +:+ span_id record
       +:+ "]"
  else "".

(** [format] for a record without exception or stack text: the format
    string '%(asctime)s - %(name)s - %(levelname)s %(trace_context)s -
    %(message)s'. *)
Definition format (record : LogRecord) : string :=
  asctime record +:+ " - " +:+ name record +:+ " - " +:+ levelname record
  +:+ " " +:+ trace_context record +:+ " - " +:+ message record.

End Formatter.

(** ** Load generator: apps/demo-app/loadgen/locustfile.py *)

Module Loadgen.

(** How a task marks the response it got. *)
Inductive mark :=
| success
| failure (exc : string).

(** What the collaborators answer during one task run: the two draws of
    [random.randint], and the status code of the answer to the posted
    payload, or the exception the client raises. *)
Record World := {
  randint_request : Z;     (* random.randint(1000, 9999) *)
  randint_value : Z;       (* random.randint(1, 100) *)
  post : pyval -> result Z;
}.

Section Tasks.
(** [type(e).__name__]. *)
Variable type_name : exn -> string.
Variable w : World.

Definition request_id : string := "loadgen-" +:+ pretty (randint_request w).

(** The payload of [DemoAppUser.send_message]. *)
Definition payload : pydict :=
  [ ("request_id", PStr request_id);
    ("message", PStr ("Load test message " +:+ request_id));
    ("data", PDict [ ("source", PStr "locust-loadgen");
                     ("test", PBool true);
                     ("random_value", PInt (randint_value w)) ]) ].

(** [DemoAppUser.send_message]. *)
Definition send_message : M unit mark :=
  try_except
    (status_code ← from_result (post w (PDict payload));
     if status_code =? 200 then mret success
     else if status_code =? 500 then
       (* Simulated errors are expected, mark as success for load testing *)
       log INFO
         ("POST /send returned 500 (simulated error) for request_id="
          +:+ request_id) [] false;;
       mret success
     else
       let error_msg := "Unexpected status code: " +:+ pretty status_code in
       log ERROR
         ("POST /send failed - " +:+ error_msg +:+ " for request_id="
          +:+ request_id +:+ ", status_code=" +:+ pretty status_code)
         [] false;;
       mret (failure error_msg))
    (fun e =>
       if is_Exception e then
         let error_msg :=
           "POST /send exception: " +:+ type_name e +:+ ": " +:+ exn_str e in
         log ERROR
           ("POST /send failed - " +:+ error_msg +:+ " for request_id="
            +:+ request_id) [] true;;
         (* Re-raise to let Locust handle it as a failure *)
         raise e
       else raise e).

(** The payload of [WebsiteUser.send_message]. *)
Definition website_payload : pydict :=
  [ ("request_id", PStr request_id);
    ("message", PStr ("Load test message " +:+ request_id));
    ("data", PDict [ ("source", PStr "locust-loadgen");
                     ("test", PBool true) ]) ].

(** [WebsiteUser.send_message]. *)
Definition website_send_message : M unit unit :=
  try_except
    (status_code ← from_result (post w (PDict website_payload));
     when (negb ((status_code =? 200) || (status_code =? 500)))
       (log ERROR
          ("POST /send failed - status_code=" +:+ pretty status_code
           +:+ " for request_id=" +:+ request_id) [] false))
    (fun e =>
       if is_Exception e then
         let error_msg :=
           "POST /send exception: " +:+ type_name e +:+ ": " +:+ exn_str e in
         log ERROR
           ("POST /send failed - " +:+ error_msg +:+ " for request_id="
            +:+ request_id) [] true;;
         raise e
       else raise e).
End Tasks.

(** The body the sender decodes from a posted payload. *)
Definition body_of (payload : pyval) : option pydict :=
  match payload with
  | PDict d => Some d
  | _ => None
  end.

End Loadgen.

(** ** Reading a run: spans, outcomes, counts *)

(** The spans open after the calls [tr], innermost first, starting from
    the open spans [open]; [None] when a span is ended that is not the
    innermost open one. *)
Fixpoint open_spans (tr : list event) (open : list string)
    : option (list string) :=
  match tr with
  | [] => Some open
  | EvSpanStart name _ :: tr' => open_spans tr' (name :: open)
  | EvSpanEnd name :: tr' =>
      match open with
      | n :: open' => if String.eqb n name then open_spans tr' open' else None
      | [] => None
      end
  | _ :: tr' => open_spans tr' open
  end.

(** A computation ends every span it starts, in reverse order, on every
    exit. *)
Definition well_nested {S A} (m : M S A) : Prop :=
  forall s open, open_spans (m s).1.1 open = Some open.

(** The calls of a run on instrument [i]. *)
Definition calls_on (i : instrument) (tr : list event) : list event :=
  List.filter (touches i) tr.
Arguments calls_on : simpl never.

(** The answer of the sender to a request whose outbound call was issued,
    as a function of what the call gave. *)
Definition forward_outcome (status_error_str : Sender.Response -> string)
    (cfg : Config) (answer : result Sender.Response) : result pyval :=
  let unexpected e :=
    inl (HTTPException 500 ("Internal error: " +:+ exn_str e)) in
  let upstream e :=
    inl (HTTPException 502 ("Receiver service error: " +:+ exn_str e)) in
  let classify e :=
    match e with
    | HTTPError _ => upstream e
    | HTTPException _ _ | CancelledError => inl e
    | ValueError _ | OtherException _ => unexpected e
    end in
  match answer with
  | inl e => classify e
  | inr response =>
      if (200 <=? Sender.status_code response)
         && (Sender.status_code response <=? 299)
      then
        match Sender.json response with
        | inr result =>
            inr (PDict [ ("status", PStr "success");
                         ("sender", PStr (SERVICE_NAME cfg));
                         ("tenant", PStr (TENANT_ID cfg));
                         ("receiver_response", result) ])
        | inl (ValueError m) =>
            inl (HTTPException 502
                   ("Invalid JSON response from receiver: " +:+ m))
        | inl e => classify e
        end
      else upstream (HTTPError (status_error_str response))
  end.

(** The status code the sender reports on its client metrics. *)
Definition client_status (answer : result Sender.Response) : Z :=
  match answer with
  | inr response => Sender.status_code response
  | inl _ => 500
  end.

(** An exception is a [fastapi.HTTPException]. *)
Definition is_HTTPException (e : exn) : bool :=
  match e with HTTPException _ _ => true | _ => false end.

(** An operation of a library does not raise [fastapi.HTTPException]. *)
Definition no_http_exception {A} (r : result A) : Prop :=
  match r with
  | inl e => is_HTTPException e = false
  | inr _ => True
  end.


(** The calls of a run that log at level [lv]. *)
Definition is_log_at (lv : log_level) (e : event) : bool :=
  match e with
  | EvLog lv' _ _ _ =>
      match lv, lv' with
      | DEBUG, DEBUG | INFO, INFO | ERROR, ERROR => true
      | _, _ => false
      end
  | _ => false
  end.

Definition logs_at (lv : log_level) (tr : list event) : list event :=
  List.filter (is_log_at lv) tr.

(** A run makes no call on any instrument. *)
Definition is_metric (e : event) : bool :=
  match e with EvAdd _ _ _ | EvRecord _ _ _ => true | _ => false end.
Definition is_sleep (e : event) : bool :=
  match e with EvSleep _ => true | _ => false end.

(** What a handler raises is an [HTTPException] with one of the status
    codes [codes], or a cancellation. *)
Definition raises_only_status (codes : list Z) (r : result pyval) : Prop :=
  match r with
  | inr _ => True
  | inl (HTTPException sc _) => sc ∈ codes
  | inl CancelledError => True
  | inl _ => False
  end.

(** ** More sample requests *)

Module Sample.

(** A receiver URL with a port that is no number. *)
Definition urlparse_bad_port (url : string) : Sender.ParseResult :=
  {| Sender.hostname := Some "receiver-service";
     Sender.port := inl (ValueError "Port could not be cast to integer value");
     Sender.scheme := "http" |}.

(** The receiver answers 503. *)
Definition response_unavailable : Sender.Response :=
  {| Sender.status_code := 503;
     Sender.content := Some "unavailable";
     Sender.json := inl (ValueError "Expecting value") |}.

Definition world_unavailable : Sender.World :=
  {| Sender.current_span := true;
     Sender.random_random := 1 # 2;
     Sender.client_post := inr response_unavailable;
     Sender.now_client_start := 10;
     Sender.now_client_end := 11 |}.

(** The simulated database call fails. *)
Definition receiver_world_fault : Receiver.World :=
  {| Receiver.current_span := true;
     Receiver.random_random := 1 # 2;
     Receiver.random_randint := 7;
     Receiver.database_await := inl (OtherException "connection reset");
     Receiver.now_start := 10;
     Receiver.now_processed := 10 + (11 # 100) |}.

Definition legacy_receiver_world : LegacyReceiver.World :=
  {| LegacyReceiver.current_span := true;
     LegacyReceiver.span_context := None;
     LegacyReceiver.database_span_context := None;
     LegacyReceiver.random_random := 1 # 2;
     LegacyReceiver.random_randint := 7;
     LegacyReceiver.database_await := inr tt;
     LegacyReceiver.now_start := 10;
     LegacyReceiver.now_processed := 10 + (11 # 100);
     LegacyReceiver.now_total := 10 + (12 # 100) |}.

Definition metric_attr (v : pyval) : attr_value :=
  match v with
  | PStr s => AStr s
  | PInt n => AInt n
  | _ => AStr ""
  end.

(** An environment with a blank endpoint and a node address. *)
Definition env : gmap string string :=
  {[ "OTEL_EXPORTER_OTLP_ENDPOINT" := " "; "NODE_IP" := "10.0.0.7" ]}.

(** Stands for [str.strip]: drops the spaces in front. *)
Fixpoint strip (s : string) : string :=
  match s with
  | String c s' => if Ascii.eqb c (Ascii.ascii_of_nat 32) then strip s' else s
  | EmptyString => s
  end.

Definition type_name (e : exn) : string :=
  match e with
  | HTTPException _ _ => "HTTPException"
  | HTTPError _ => "ConnectError"
  | ValueError _ => "ValueError"
  | OtherException _ => "RuntimeError"
  | CancelledError => "CancelledError"
  end.

End Sample.


(** ** A request of the load generator through both services *)

Module Journey.

(** The load generator draws 4821 and 17, and gets the status of the
    answer of a sender with ERROR_RATE=1.0 to what it posts. *)
Definition loadgen_world : Loadgen.World :=
  {| Loadgen.randint_request := 4821;
     Loadgen.randint_value := 17;
     Loadgen.post := fun posted =>
       inr (response_status
              (run (Sender.send_message Example.json_dumps Example.urlparse
                      Example.status_error_str Example.failing_sender_cfg
                      Example.world_ok (Loadgen.body_of posted))).2) |}.

(** What the sender forwards for the payload of the load generator, as
    the receiver decodes it. *)
Definition forwarded : pydict :=
  [ ("request_id", PStr "loadgen-4821");
    ("tenant_id", PStr "tenant-a");
    ("sender", PStr "sender-service");
    ("data", PDict (Loadgen.payload loadgen_world)) ].

(** The answer of the receiver to the forwarded payload, as the sender
    gets it. *)
Definition response : Sender.Response :=
  {| Sender.status_code := 200;
     Sender.content := Some "processed";
     Sender.json :=
       (run (Receiver.process_request Example.receiver_cfg
               Example.receiver_world forwarded)).2 |}.

Definition sender_world : Sender.World :=
  {| Sender.current_span := true;
     Sender.random_random := 1 # 2;
     Sender.client_post := inr response;
     Sender.now_client_start := 10;
     Sender.now_client_end := 11 |}.

End Journey.

(** ** Symbolic execution *)

Create HintDb handler.
#[export] Hint Unfold run mbind mret M_bind M_ret bind ret emit raise get modify
  when try_except try_finally with_locals await from_result set_attribute
  set_status record_exception log sleep with_span : handler.
#[export] Hint Unfold Middleware.set_status_code
  Middleware.set_response_body_size Sender.set_request_body_size
  Sender.set_response_body_size Sender.set_client_status_code
  Sender.raise_for_status Sender.post LegacySender.post
  Receiver.simulate_database_call LegacyReceiver.simulate_database_call
  : handler.

(** Unfold the operations of a computation and evaluate what is known. *)
Ltac mstep :=
  repeat (progress (autounfold with handler; cbn));
  rewrite ?app_nil_r.

(** ** Facts about floats *)

Lemma Qltb_lt (a b : Q) : Qltb a b = true <-> (a < b)%Q.
Proof.
  unfold Qltb. rewrite negb_true_iff. split.
  - intros H. apply Qnot_le_lt. intros Hle.
    apply Qle_bool_iff in Hle. congruence.
  - intros H. destruct (Qle_bool b a) eqn:E; [|reflexivity].
    apply Qle_bool_iff in E. exfalso. eapply Qlt_not_le; eauto.
Qed.

Lemma Qltb_ge (a b : Q) : Qltb a b = false <-> (b <= a)%Q.
Proof.
  unfold Qltb. rewrite negb_false_iff. apply Qle_bool_iff.
Qed.

(** [random.random()] lies in [0, 1): it is always below an error rate of
    1.0 and never below an error rate of 0.0. *)
Lemma draw_below_one (r rate : Q) :
  (0 <= r)%Q -> (r < 1)%Q -> (rate == 1)%Q -> Qltb r rate = true.
Proof. intros _ H1 Hr. apply Qltb_lt. by rewrite Hr. Qed.

Lemma draw_not_below_zero (r rate : Q) :
  (0 <= r)%Q -> (r < 1)%Q -> (rate == 0)%Q -> Qltb r rate = false.
Proof. intros H0 _ Hr. apply Qltb_ge. by rewrite Hr. Qed.

(** ** What a computation emits *)

Section EmitsOnly.
Context {S : Type} (P : event -> Prop).

Lemma emits_only_ret {A} (a : A) : emits_only P (mret a : M S A).
Proof. intros s. constructor. Qed.

Lemma emits_only_raise {A} e : emits_only P (raise e : M S A).
Proof. intros s. constructor. Qed.

Lemma emits_only_get : emits_only P (get : M S S).
Proof. intros s. constructor. Qed.

Lemma emits_only_modify f : emits_only P (modify f : M S unit).
Proof. intros s. constructor. Qed.

Lemma emits_only_from_result {A} (r : result A) :
  emits_only P (from_result r : M S A).
Proof. intros s. constructor. Qed.

Lemma emits_only_emit e : P e -> emits_only P (emit e : M S unit).
Proof. intros H s. by repeat constructor. Qed.

Lemma emits_only_bind {A B} (m : M S A) (k : A -> M S B) :
  emits_only P m -> (forall a, emits_only P (k a)) -> emits_only P (m ≫= k).
Proof.
  intros Hm Hk s. specialize (Hm s).
  unfold mbind, M_bind, bind. destruct (m s) as [[t1 s1] [e|a]]; cbn in *.
  - done.
  - specialize (Hk a s1). destruct (k a s1) as [[t2 s2] r]; cbn in *.
    by apply Forall_app.
Qed.

Lemma emits_only_when c (m : M S unit) :
  emits_only P m -> emits_only P (when c m).
Proof. intros H. destruct c; [done|apply emits_only_ret]. Qed.

Lemma emits_only_try_except {A} (m : M S A) h :
  emits_only P m -> (forall e, emits_only P (h e)) ->
  emits_only P (try_except m h).
Proof.
  intros Hm Hh s. specialize (Hm s).
  unfold try_except. destruct (m s) as [[t1 s1] [e|a]]; cbn in *.
  - specialize (Hh e s1). destruct (h e s1) as [[t2 s2] r]; cbn in *.
    by apply Forall_app.
  - done.
Qed.

Lemma emits_only_try_finally {A} (m : M S A) fin :
  emits_only P m -> emits_only P fin -> emits_only P (try_finally m fin).
Proof.
  intros Hm Hf s. specialize (Hm s).
  unfold try_finally. destruct (m s) as [[t1 s1] r]; cbn in *.
  specialize (Hf s1). destruct (fin s1) as [[t2 s2] [e|[]]]; cbn in *.
  all: by apply Forall_app.
Qed.

Lemma emits_only_with_span {A} name kind (m : M S A) :
  P (EvSpanStart name kind) -> P (EvSpanEnd name) ->
  emits_only P m -> emits_only P (with_span name kind m).
Proof.
  intros H1 H2 Hm. unfold with_span.
  apply (emits_only_bind (emit (EvSpanStart name kind))).
  - by apply emits_only_emit.
  - intros _. apply emits_only_try_finally; [done|by apply emits_only_emit].
Qed.
End EmitsOnly.

Lemma emits_only_with_locals {S S' A} P (init : S') (m : M S' A) :
  emits_only P m -> emits_only P (with_locals init m : M S A).
Proof.
  intros Hm s. specialize (Hm init). unfold with_locals.
  by destruct (m init) as [[t s'] r].
Qed.

Ltac emits_step :=
  lazymatch goal with
  | |- emits_only _ (_ ≫= _) => apply emits_only_bind; [|intros ?]
  | |- emits_only _ (mret _) => apply emits_only_ret
  | |- emits_only _ (raise _) => apply emits_only_raise
  | |- emits_only _ get => apply emits_only_get
  | |- emits_only _ (modify _) => apply emits_only_modify
  | |- emits_only _ (from_result _) => apply emits_only_from_result
  | |- emits_only _ (when _ _) => apply emits_only_when
  | |- emits_only _ (try_except _ _) => apply emits_only_try_except; [|intros ?]
  | |- emits_only _ (try_finally _ _) => apply emits_only_try_finally
  | |- emits_only _ (with_locals _ _) => apply emits_only_with_locals
  | |- emits_only _ (with_span _ _ _) => apply emits_only_with_span
  | |- emits_only _ (emit _) => apply emits_only_emit
  | |- emits_only _ (set_attribute _ _ _) => apply emits_only_emit
  | |- emits_only _ (set_status _ _) => apply emits_only_emit
  | |- emits_only _ (record_exception _ _) => apply emits_only_emit
  | |- emits_only _ (log _ _ _ _) => apply emits_only_emit
  | |- emits_only _ (sleep _) => apply emits_only_emit
  | |- emits_only _ (match ?x with _ => _ end) => destruct x
  | |- emits_only _ (let _ := _ in _) => cbv zeta
  end.


(** ** The middleware *)

Section MiddlewareFacts.
Import Middleware MiddlewareExit.
Variable py_int : string -> option Z.
Variable cfg : Config.
Variable clock : Clock.

(** A run of [dispatch]: the increment, the calls of [call_next], the
    calls of the [finally] block; the outcome of [call_next] passes
    through unchanged. *)
Lemma dispatch_run request tr r :
  run (dispatch py_int cfg clock request (tr, r)) =
  (EvAdd http_server_active_requests 1 (active_requests_key cfg request)
     :: tr ++ exit_events py_int cfg clock request r, r).
Proof.
  unfold dispatch, exit_events, size_record, recorded_response_size,
    recorded_status, recorded_request_size.
  destruct (content_length request) as [h|];
    [destruct (str_truthy h);
     [destruct (py_int h) as [n|]; [destruct (0 <? n)|]|]|].
  all: destruct r as [e|response]; [destruct e|]; mstep; try reflexivity.
  all: destruct (has_truthy (body response));
    [|destruct (has_truthy (content response))]; mstep.
  all: repeat match goal with
              | |- context [0 <? ?n] => destruct (0 <? n)
              end; mstep; reflexivity.
Qed.
End MiddlewareFacts.

(** ** Up-down counters *)

Lemma gauge_value_add k amount g k' :
  gauge_value (gauge_add k amount g) k' =
  gauge_value g k' + (if decide (k = k') then amount else 0).
Proof.
  unfold gauge_value, gauge_add. destruct (decide (k = k')) as [->|Hne].
  - rewrite lookup_insert_eq. reflexivity.
  - rewrite lookup_insert_ne by done. cbn. lia.
Qed.

Lemma gauge_value_after i tr : forall g k,
  gauge_value (gauge_after i tr g) k = gauge_value g k + net_amount i k tr.
Proof.
  induction tr as [|e tr IH]; intros g k; cbn.
  - lia.
  - unfold gauge_after in IH. rewrite IH.
    destruct e; cbn; try lia.
    destruct (decide (i0 = i)); [|lia].
    rewrite gauge_value_add. lia.
Qed.

Lemma net_amount_app i k tr1 tr2 :
  net_amount i k (tr1 ++ tr2) = net_amount i k tr1 + net_amount i k tr2.
Proof.
  induction tr1 as [|e tr1 IH]; cbn; [lia|].
  destruct e; cbn; lia.
Qed.

Lemma net_amount_untouched i k tr :
  Forall (fun e => touches i e = false) tr -> net_amount i k tr = 0.
Proof.
  induction 1 as [|e tr He _ IH]; cbn; [reflexivity|].
  destruct e; cbn in *; try assumption.
  apply bool_decide_eq_false in He.
  destruct (decide (i0 = i)); [done|lia].
Qed.

Lemma prefix_app_cases {A} (p l1 l2 : list A) :
  p `prefix_of` l1 ++ l2 ->
  p `prefix_of` l1 \/ exists q, p = l1 ++ q /\ q `prefix_of` l2.
Proof.
  revert p. induction l1 as [|x l1 IH]; intros p Hp; cbn in *.
  - right. exists p. done.
  - destruct p as [|y p].
    + left. apply prefix_nil.
    + pose proof (prefix_cons_inv_1 _ _ _ _ Hp) as ->.
      apply prefix_cons_inv_2 in Hp.
      destruct (IH _ Hp) as [H|(q & -> & Hq)].
      * left. by apply prefix_cons.
      * right. exists q. done.
Qed.

Lemma Forall_prefix {A} (P : A -> Prop) (p l : list A) :
  p `prefix_of` l -> Forall P l -> Forall P p.
Proof. intros [q ->] H. by apply Forall_app in H as [H _]. Qed.

(** Between a matched increment and decrement, with nothing else touching
    the counter, the net amount stays within 0 and 1 at every point. *)
Lemma net_amount_bracket i key tr rest p k :
  Forall (fun e => touches i e = false) tr ->
  Forall (fun e => touches i e = false) rest ->
  p `prefix_of` EvAdd i 1 key :: tr ++ EvAdd i (-1) key :: rest ->
  0 <= net_amount i k p <= 1.
Proof.
  intros Htr Hrest Hp. destruct p as [|e p]; cbn; [lia|].
  pose proof (prefix_cons_inv_1 _ _ _ _ Hp) as ->.
  apply prefix_cons_inv_2, prefix_app_cases in Hp.
  rewrite decide_True by done.
  destruct Hp as [Hp|(q & -> & Hq)].
  - rewrite (net_amount_untouched i k p) by eauto using Forall_prefix.
    destruct (decide (key = k)); lia.
  - rewrite net_amount_app, (net_amount_untouched i k tr) by done.
    destruct q as [|e q]; cbn; [destruct (decide (key = k)); lia|].
    pose proof (prefix_cons_inv_1 _ _ _ _ Hq) as ->.
    apply prefix_cons_inv_2 in Hq. cbn.
    rewrite (decide_True (P := i = i)) by done.
    rewrite (net_amount_untouched i k q) by eauto using Forall_prefix.
    destruct (decide (key = k)); lia.
Qed.

Section MiddlewareClaims.
Import Middleware MiddlewareExit.
Variable py_int : string -> option Z.
Variable cfg : Config.
Variable clock : Clock.

Lemma size_record_untouched i j sz attrs :
  i <> j -> Forall (fun e => touches j e = false) (size_record i sz attrs).
Proof.
  intros Hne. unfold size_record. destruct sz as [n|]; [|constructor].
  destruct (0 <? n); repeat constructor.
  cbn. by apply bool_decide_eq_false.
Qed.

(** C4.  A run of [dispatch] adds 1 to the active-request counter before
    the calls of [call_next] and -1 after them, under the same attribute
    set with the keys server.address, server.port, http.request.method,
    url.scheme and http.route, and touches the counter nowhere else,
    whatever the outcome of [call_next].  Hence, when [call_next] leaves
    the counter alone and no sum is negative before the request, no sum
    is negative at any point of the run and every sum ends at the value
    it started from. *)
Theorem dispatch_active_requests_balanced (request : Request)
    (tr : list event) (r : result Response) (g : gmap attributes Z) :
  Forall (fun e => touches http_server_active_requests e = false) tr ->
  (forall k, 0 <= gauge_value g k) ->
  let key := active_requests_key cfg request in
  let calls := (run (dispatch py_int cfg clock request (tr, r))).1 in
  (exists rest,
      calls = EvAdd http_server_active_requests 1 key
                :: tr ++ EvAdd http_server_active_requests (-1) key :: rest
      /\ Forall (fun e => touches http_server_active_requests e = false) rest)
  /\ key.*1 = ["server.address"; "server.port"; "http.request.method";
               "url.scheme"; "http.route"]
  /\ (forall p k, p `prefix_of` calls ->
        0 <= gauge_value (gauge_after http_server_active_requests p g) k)
  /\ (forall k,
        gauge_value (gauge_after http_server_active_requests calls g) k
        = gauge_value g k).
Proof.
  intros Htr Hg key calls. subst calls. rewrite dispatch_run. cbn [fst].
  unfold exit_events. fold key.
  set (attrs := duration_attributes cfg request (recorded_status r)).
  set (rest := EvRecord http_server_request_duration _ attrs :: _ ++ _).
  assert (Hrest : Forall (fun e => touches http_server_active_requests e = false)
                    rest).
  { subst rest. constructor; [done|].
    apply Forall_app; split; by apply size_record_untouched. }
  split; [by exists rest|]. clearbody rest attrs.
  split; [reflexivity|]. split.
  - intros p k Hp. rewrite gauge_value_after.
    pose proof (net_amount_bracket _ _ _ _ _ k Htr Hrest Hp).
    specialize (Hg k). lia.
  - intros k. rewrite gauge_value_after. cbn.
    rewrite (decide_True (P := http_server_active_requests
                               = http_server_active_requests)) by done.
    rewrite net_amount_app, (net_amount_untouched _ k tr) by done.
    cbn.
    rewrite (decide_True (P := http_server_active_requests
                               = http_server_active_requests)) by done.
    rewrite (net_amount_untouched _ k rest) by done.
    destruct (decide (key = k)); lia.
Qed.

(** C5.  Among the calls [dispatch] makes itself there is exactly one
    record on the duration histogram, and its http.response.status_code
    attribute is the status of the response when [call_next] returns, the
    status code of the exception when it raises an [HTTPException], and
    500 when it raises anything else; the outcome of [call_next] is
    passed on unchanged. *)
Theorem dispatch_records_duration_once (request : Request)
    (tr : list event) (r : result Response) :
  let key := active_requests_key cfg request in
  let outcome := run (dispatch py_int cfg clock request (tr, r)) in
  let sc := match r with
            | inr response => status_code response
            | inl (HTTPException c _) => c
            | inl _ => 500
            end in
  exists own attrs,
    outcome = (EvAdd http_server_active_requests 1 key :: tr ++ own, r)
    /\ List.filter (touches http_server_request_duration)
         (EvAdd http_server_active_requests 1 key :: own)
       = [EvRecord http_server_request_duration
            (now_at_exit clock - now_at_entry clock)%Q attrs]
    /\ attr_lookup attrs "http.response.status_code" = Some (AInt sc).
Proof.
  intros key outcome sc. subst outcome. rewrite dispatch_run.
  exists (exit_events py_int cfg clock request r),
    (duration_attributes cfg request sc).
  split; [reflexivity|]. split; [|reflexivity].
  unfold exit_events. fold sc. change (recorded_status r) with sc.
  cbn. f_equal. rewrite List.filter_app.
  assert (Hnone : forall i sz attrs,
             i <> http_server_request_duration ->
             List.filter (touches http_server_request_duration)
               (size_record i sz attrs) = []).
  { intros i sz attrs Hi. unfold size_record.
    destruct sz as [n|]; [|reflexivity].
    destruct (0 <? n); [|reflexivity]. cbn.
    by rewrite bool_decide_eq_false_2. }
  by rewrite !Hnone.
Qed.
End MiddlewareClaims.

(** ** The sender *)

(** Destruct what a stuck [match] of the goal waits for. *)
Ltac mcase :=
  match goal with
  | |- context [match ?x with _ => _ end] =>
      lazymatch x with
      | context [match _ with _ => _ end] => fail
      | _ => destruct x eqn:?
      end
  end.

Lemma is_2xx_true sc :
  200 <= sc <= 299 -> (200 <=? sc) && (sc <=? 299) = true.
Proof. intros. apply andb_true_iff. split; apply Z.leb_le; lia. Qed.

Lemma is_2xx_false sc :
  ~ (200 <= sc <= 299) -> (200 <=? sc) && (sc <=? 299) = false.
Proof.
  intros H. apply andb_false_iff.
  destruct (decide (200 <= sc)); [right|left]; apply Z.leb_gt; lia.
Qed.

Section SenderClaims.
Import Sender.
Variable json_dumps : pyval -> string.
Variable urlparse : string -> ParseResult.
Variable status_error_str : Response -> string.
Variable cfg : Config.
Variable w : World.

Local Abbreviation send :=
  (send_message json_dumps urlparse status_error_str cfg w).

(** Run [send] along the path on which the call is issued. *)
Ltac send_forward Hdraw Hport :=
  unfold send_message;
  rewrite Hdraw, Hport;
  destruct (current_span w), (0 <? LATENCY_MS cfg); mstep.

(** When the draw is not below the error rate and the port of the
    receiver URL can be read, the outbound call is issued; the calls
    that serialize something are then one [json.dumps] of the payload
    and the [post] that carries the same payload. *)
Lemma send_forwarded data p :
  Qltb (random_random w) (ERROR_RATE cfg) = false ->
  port (urlparse (RECEIVER_SERVICE_URL cfg)) = inr p ->
  call_issued (run (send data)).1 = true
  /\ serializations (run (send data)).1
     = [ EvJsonDumps (payload_of cfg data);
         EvPost (RECEIVER_SERVICE_URL cfg +:+ "/process")
           (payload_of cfg data) 10%Q ].
Proof.
  intros Hdraw Hport. send_forward Hdraw Hport.
  all: repeat (mcase; mstep); split; reflexivity.
Qed.

(** A run that draws below the error rate. *)
Lemma send_simulated_error data :
  Qltb (random_random w) (ERROR_RATE cfg) = true ->
  (run (send data)).2 = inl (HTTPException 500 "Simulated error")
  /\ call_issued (run (send data)).1 = false
  /\ (current_span w = true ->
      last_status (run (send data)).1 CurrentSpan
      = Some (StatusERROR "Simulated error")).
Proof.
  intros Hdraw. unfold send_message. rewrite Hdraw.
  destruct (current_span w), (0 <? LATENCY_MS cfg); mstep.
  all: repeat split; done.
Qed.

(** A run that cannot read the port of the receiver URL. *)
Lemma send_unreadable_port data e :
  Qltb (random_random w) (ERROR_RATE cfg) = false ->
  port (urlparse (RECEIVER_SERVICE_URL cfg)) = inl e ->
  call_issued (run (send data)).1 = false.
Proof.
  intros Hdraw Hport. unfold send_message.
  rewrite Hdraw, Hport.
  destruct (current_span w), (0 <? LATENCY_MS cfg), e; mstep.
  all: reflexivity.
Qed.

(** The outbound call is issued exactly when the draw is not below the
    error rate and the port of the receiver URL can be read. *)
Lemma call_issued_iff data :
  call_issued (run (send data)).1 = true <->
  Qltb (random_random w) (ERROR_RATE cfg) = false
  /\ exists p, port (urlparse (RECEIVER_SERVICE_URL cfg)) = inr p.
Proof.
  split.
  - intros Hissued.
    destruct (Qltb (random_random w) (ERROR_RATE cfg)) eqn:Hdraw.
    { destruct (send_simulated_error data Hdraw) as (_ & H & _).
      congruence. }
    destruct (port (urlparse (RECEIVER_SERVICE_URL cfg))) as [e|p] eqn:Hport.
    { pose proof (send_unreadable_port data e Hdraw Hport). congruence. }
    eauto.
  - intros (Hdraw & p & Hport). by destruct (send_forwarded data p).
Qed.

(** Run [send] to the end along the path the hypotheses select. *)
Ltac send_run Hissued :=
  let Hdraw := fresh "Hdraw" in
  let Hport := fresh "Hport" in
  apply call_issued_iff in Hissued as [Hdraw [? Hport]];
  send_forward Hdraw Hport.

(** C1.  When the outbound call is issued and the receiver answers with
    a 2xx status and a body that [response.json()] cannot parse, the
    handler raises [HTTPException] with status 502, so the request is
    answered 502 and not 500; the parse exception is recorded on the
    call_receiver span and the status last set on that span is ERROR. *)
Theorem send_malformed_json_502 data response msg :
  call_issued (run (send data)).1 = true ->
  client_post w = inr response ->
  200 <= status_code response <= 299 ->
  json response = inl (ValueError msg) ->
  let detail := "Invalid JSON response from receiver: " +:+ msg in
  (run (send data)).2 = inl (HTTPException 502 detail)
  /\ response_status (run (send data)).2 = 502
  /\ response_status (run (send data)).2 <> 500
  /\ ValueError msg
       ∈ recorded_exceptions (run (send data)).1 (Named "call_receiver")
  /\ last_status (run (send data)).1 (Named "call_receiver")
     = Some (StatusERROR detail).
Proof.
  intros Hissued Hpost Hsc Hjson detail. subst detail.
  send_run Hissued.
  all: rewrite Hpost; mstep; rewrite (is_2xx_true _ Hsc); mstep.
  all: rewrite Hjson; mstep.
  all: repeat (mcase; mstep).
  all: rewrite ?decide_True by done.
  all: repeat split; try done; apply list_elem_of_here.
Qed.

(** C2.  When the outbound call is issued and fails with an
    [httpx.HTTPError] (connection refused, timeout) or returns a status
    that is not 2xx, the exception is recorded on the call_receiver
    span, the status last set on that span is ERROR, and the request is
    answered 502 with a detail that starts with "Receiver service
    error: ". *)
Theorem send_upstream_error_502 data m :
  call_issued (run (send data)).1 = true ->
  (client_post w = inl (HTTPError m)
   \/ exists response,
        client_post w = inr response
        /\ ~ (200 <= status_code response <= 299)
        /\ m = status_error_str response) ->
  (run (send data)).2
    = inl (HTTPException 502 ("Receiver service error: " +:+ m))
  /\ response_status (run (send data)).2 = 502
  /\ HTTPError m
       ∈ recorded_exceptions (run (send data)).1 (Named "call_receiver")
  /\ last_status (run (send data)).1 (Named "call_receiver")
     = Some (StatusERROR m).
Proof.
  intros Hissued [Hpost|(response & Hpost & Hsc & ->)].
  all: send_run Hissued.
  all: rewrite Hpost; mstep; rewrite ?(is_2xx_false _ Hsc); mstep.
  all: repeat (mcase; mstep).
  all: rewrite ?decide_True by done.
  all: repeat split; try done; apply list_elem_of_here.
Qed.

(** C7.  With an error rate of 0.0 and a receiver URL whose port can be
    read, when the receiver answers the outbound call with a 2xx status
    and a body that parses, the request is answered 200, the status last set on the call_receiver
    span is OK, and the body returned holds the decoded answer of the
    receiver under receiver_response. *)
Theorem send_success_200 data response v p :
  (ERROR_RATE cfg == 0)%Q ->
  (0 <= random_random w)%Q -> (random_random w < 1)%Q ->
  port (urlparse (RECEIVER_SERVICE_URL cfg)) = inr p ->
  client_post w = inr response ->
  200 <= status_code response <= 299 ->
  json response = inr v ->
  response_status (run (send data)).2 = 200
  /\ last_status (run (send data)).1 (Named "call_receiver") = Some StatusOK
  /\ exists body,
       (run (send data)).2 = inr (PDict body)
       /\ dict_lookup body "receiver_response" = Some v.
Proof.
  intros Hrate Hr0 Hr1 Hport Hpost Hsc Hjson.
  pose proof (draw_not_below_zero _ _ Hr0 Hr1 Hrate) as Hdraw.
  send_forward Hdraw Hport.
  all: rewrite Hpost; mstep; rewrite (is_2xx_true _ Hsc); mstep.
  all: rewrite Hjson; mstep.
  all: repeat (mcase; mstep).
  all: rewrite ?decide_True by done.
  all: repeat split; try done; eexists; split; reflexivity.
Qed.
End SenderClaims.

(** ** The receiver *)

Section ReceiverClaims.
Import Receiver.
Variable cfg : Config.
Variable w : World.

(** A run that draws below the error rate. *)
Lemma process_simulated_error data :
  Qltb (random_random w) (ERROR_RATE cfg) = true ->
  (run (process_request cfg w data)).2
    = inl (HTTPException 500 "Simulated processing error")
  /\ (current_span w = true ->
      last_status (run (process_request cfg w data)).1 CurrentSpan
      = Some (StatusERROR "Simulated error")).
Proof.
  intros Hdraw. unfold process_request. rewrite Hdraw.
  destruct (current_span w), (0 <? LATENCY_MS cfg); mstep.
  all: repeat split; done.
Qed.

(** A run that passes the check and whose awaits complete. *)
Lemma process_completes data :
  Qltb (random_random w) (ERROR_RATE cfg) = false ->
  database_await w = inr tt ->
  let request_id := dict_get data "request_id" (PStr "unknown") in
  let sender := dict_get data "sender" (PStr "unknown") in
  let tenant_id := dict_get data "tenant_id" (PStr (TENANT_ID cfg)) in
  let db_result :=
    PDict [ ("records", PInt (random_randint w)); ("status", PStr "success") ] in
  (run (process_request cfg w data)).2
    = inr (processed cfg request_id tenant_id sender db_result
             (now_processed w - now_start w)%Q)
  /\ last_status (run (process_request cfg w data)).1 (Named "process_data")
     = Some StatusOK
  /\ (current_span w = true ->
      last_status (run (process_request cfg w data)).1 CurrentSpan
      = Some StatusOK).
Proof.
  intros Hdraw Hawait. unfold process_request. rewrite Hdraw.
  destruct (current_span w), (0 <? LATENCY_MS cfg); mstep.
  all: rewrite Hawait; mstep.
  all: repeat split; done.
Qed.

(** A run that passes the check and in which an await raises. *)
Lemma process_fails data e :
  Qltb (random_random w) (ERROR_RATE cfg) = false ->
  database_await w = inl e ->
  exists e', (run (process_request cfg w data)).2 = inl e'.
Proof.
  intros Hdraw Hawait. unfold process_request. rewrite Hdraw.
  destruct (current_span w), (0 <? LATENCY_MS cfg); mstep.
  all: rewrite Hawait; destruct e; mstep; eauto.
Qed.

(** C8.  A request that passes the error-injection check and completes
    without an exception is answered 200 with the dict whose keys are
    exactly status, request_id, tenant_id, sender, receiver,
    database_result and processing_time_seconds, with status
    "processed"; by then the status last set on the process_data span is
    OK, and so is the status last set on the server span. *)
Theorem process_success_200 data v :
  current_span w = true ->
  Qltb (random_random w) (ERROR_RATE cfg) = false ->
  (run (process_request cfg w data)).2 = inr v ->
  response_status (run (process_request cfg w data)).2 = 200
  /\ v = PDict
           [ ("status", PStr "processed");
             ("request_id", dict_get data "request_id" (PStr "unknown"));
             ("tenant_id", dict_get data "tenant_id" (PStr (TENANT_ID cfg)));
             ("sender", dict_get data "sender" (PStr "unknown"));
             ("receiver", PStr (SERVICE_NAME cfg));
             ("database_result",
               PDict [ ("records", PInt (random_randint w));
                       ("status", PStr "success") ]);
             ("processing_time_seconds",
               PFloat (now_processed w - now_start w)%Q) ]
  /\ keys v = [ "status"; "request_id"; "tenant_id"; "sender"; "receiver";
                "database_result"; "processing_time_seconds" ]
  /\ last_status (run (process_request cfg w data)).1 (Named "process_data")
     = Some StatusOK
  /\ last_status (run (process_request cfg w data)).1 CurrentSpan
     = Some StatusOK.
Proof.
  intros Hspan Hdraw Hret.
  destruct (database_await w) as [e|[]] eqn:Hawait.
  { destruct (process_fails data e Hdraw Hawait) as [e' He']. congruence. }
  destruct (process_completes data Hdraw Hawait) as (Hrun & Hpd & Hsrv).
  rewrite Hrun in Hret |- *. injection Hret as <-.
  repeat split; try done. by apply Hsrv.
Qed.
End ReceiverClaims.

(** ** The older sender *)

(** The older variant has no clause of its own for a body that does not
    parse: the [ValueError] reaches [except Exception] and the request is
    answered 500. *)
Lemma legacy_send_malformed_json_500 status_error_str cfg
    (w : LegacySender.World) data response msg :
  Qltb (LegacySender.random_random w) (ERROR_RATE cfg) = false ->
  LegacySender.client_post w = inr response ->
  200 <= Sender.status_code response <= 299 ->
  Sender.json response = inl (ValueError msg) ->
  (run (LegacySender.send_message status_error_str cfg w data)).2
  = inl (HTTPException 500 ("Internal error: " +:+ msg)).
Proof.
  intros Hdraw Hpost Hsc Hjson. unfold LegacySender.send_message.
  rewrite Hdraw.
  destruct (LegacySender.current_span w), (0 <? LATENCY_MS cfg); mstep.
  all: rewrite Hpost; mstep; rewrite (is_2xx_true _ Hsc); mstep.
  all: by rewrite Hjson.
Qed.

(** ** The order of delay and draw, and what is logged on receipt *)

Lemma phases_none tr :
  Forall (fun e => phase_of e = None) tr -> phases tr = [].
Proof.
  induction 1 as [|e tr He _ IH]; [reflexivity|].
  unfold phases in *. cbn. by rewrite He, IH.
Qed.

(** Name the part of a handler that follows the draw and show that it
    neither opens the artificial_latency span nor draws. *)
Ltac after_draw rest Hrest :=
  match goal with
  | |- context [emit (EvRandom ?x) ≫= ?k] =>
      set (rest := k);
      assert (Hrest : emits_only (fun e => phase_of e = None) (rest tt));
      [ subst rest; cbv beta;
        match goal with
        | |- emits_only _ (if ?c then _ else _) => destruct c
        end;
        repeat emits_step; reflexivity
      | clearbody rest ]
  end.

Section Order.
Variable json_dumps : pyval -> string.
Variable urlparse : string -> Sender.ParseResult.
Variable status_error_str : Sender.Response -> string.
Variable metric_attr : pyval -> attr_value.
Variable cfg : Config.

Lemma sender_phases (w : Sender.World) data :
  phases (run (Sender.send_message json_dumps urlparse status_error_str cfg w
                 data)).1
  = latency_then_draw cfg.
Proof.
  unfold Sender.send_message, latency_then_draw, Sender.raise_for_status,
    Sender.post.
  after_draw rest Hrest.
  specialize (Hrest tt).
  destruct (Sender.current_span w), (0 <? LATENCY_MS cfg); mstep.
  all: destruct (rest tt tt) as [[t s] r]; cbn in *.
  all: fold (phases t); by rewrite (phases_none t).
Qed.

Lemma legacy_sender_phases (w : LegacySender.World) data :
  phases (run (LegacySender.send_message status_error_str cfg w data)).1
  = latency_then_draw cfg.
Proof.
  unfold LegacySender.send_message, latency_then_draw,
    Sender.raise_for_status, LegacySender.post.
  after_draw rest Hrest.
  specialize (Hrest tt).
  destruct (LegacySender.current_span w), (0 <? LATENCY_MS cfg); mstep.
  all: destruct (rest tt tt) as [[t s] r]; cbn in *.
  all: fold (phases t); by rewrite (phases_none t).
Qed.

Lemma receiver_phases (w : Receiver.World) data :
  phases (run (Receiver.process_request cfg w data)).1 = latency_then_draw cfg.
Proof.
  unfold Receiver.process_request, latency_then_draw,
    Receiver.simulate_database_call.
  after_draw rest Hrest.
  specialize (Hrest tt).
  destruct (Receiver.current_span w), (0 <? LATENCY_MS cfg); mstep.
  all: destruct (rest tt tt) as [[t s] r]; cbn in *.
  all: fold (phases t); by rewrite (phases_none t).
Qed.

(** What the two handlers log on receipt, on every request. *)
Lemma send_logged (w : Sender.World) data :
  logged (run (Sender.send_message json_dumps urlparse status_error_str cfg w
                 data)).1 "Received request to send"
  = Some [ ("request.id", Sender.request_id_of data);
           ("tenant.id", PStr (TENANT_ID cfg));
           ("service.name", PStr (SERVICE_NAME cfg)) ].
Proof.
  unfold Sender.send_message.
  match goal with
  | |- context [log INFO "Received request to send" _ _ ≫= ?k] =>
      generalize k; intros rest
  end.
  destruct (Sender.current_span w); mstep.
  all: by destruct (rest tt tt) as [[t s] r].
Qed.

Lemma process_logged (w : Receiver.World) data :
  logged (run (Receiver.process_request cfg w data)).1
    "Received request for processing"
  = Some [ ("request.id", dict_get data "request_id" (PStr "unknown"));
           ("sender.service", dict_get data "sender" (PStr "unknown"));
           ("tenant.id", dict_get data "tenant_id" (PStr (TENANT_ID cfg)));
           ("service.name", PStr (SERVICE_NAME cfg)) ].
Proof.
  unfold Receiver.process_request.
  match goal with
  | |- context [log INFO "Received request for processing" _ _ ≫= ?k] =>
      generalize k; intros rest
  end.
  destruct (Receiver.current_span w); mstep.
  all: by destruct (rest tt tt) as [[t s] r].
Qed.

Lemma legacy_receiver_phases (w : LegacyReceiver.World) data :
  phases (run (LegacyReceiver.process_request metric_attr cfg w data)).1
  = latency_then_draw cfg.
Proof.
  unfold LegacyReceiver.process_request, latency_then_draw,
    LegacyReceiver.simulate_database_call.
  after_draw rest Hrest.
  specialize (Hrest tt).
  destruct (LegacyReceiver.current_span w), (0 <? LATENCY_MS cfg); mstep.
  all: destruct (rest tt tt) as [[t s] r]; cbn in *.
  all: fold (phases t); by rewrite (phases_none t).
Qed.
End Order.

(** ** Claims about both services *)

(** The handlers leave the active-request counter of the middleware
    alone. *)
Lemma send_message_leaves_server_counter json_dumps urlparse status_error_str
    cfg w data :
  emits_only (fun e => touches http_server_active_requests e = false)
    (Sender.send_message json_dumps urlparse status_error_str cfg w data).
Proof.
  unfold Sender.send_message, Sender.raise_for_status, Sender.post.
  repeat emits_step; reflexivity.
Qed.

Lemma process_request_leaves_server_counter cfg w data :
  emits_only (fun e => touches http_server_active_requests e = false)
    (Receiver.process_request cfg w data).
Proof.
  unfold Receiver.process_request, Receiver.simulate_database_call.
  repeat emits_step; reflexivity.
Qed.

(** C3.  With an error rate of 1.0 every draw of [random.random()], which
    lies in [0, 1), is below the rate: POST /send and POST /process are
    answered 500, the status last set on the server span is ERROR with the
    message "Simulated error", and the sender issues no outbound call. *)
Theorem error_rate_one_answers_500
    (json_dumps : pyval -> string) (urlparse : string -> Sender.ParseResult)
    (status_error_str : Sender.Response -> string)
    (sender_cfg : Config) (ws : Sender.World) (body : option pydict)
    (receiver_cfg : Config) (wr : Receiver.World) (forwarded : pydict) :
  (ERROR_RATE sender_cfg == 1)%Q ->
  (ERROR_RATE receiver_cfg == 1)%Q ->
  (0 <= Sender.random_random ws)%Q -> (Sender.random_random ws < 1)%Q ->
  (0 <= Receiver.random_random wr)%Q -> (Receiver.random_random wr < 1)%Q ->
  Sender.current_span ws = true ->
  Receiver.current_span wr = true ->
  let sent :=
    run (Sender.send_message json_dumps urlparse status_error_str sender_cfg
           ws body) in
  let processed := run (Receiver.process_request receiver_cfg wr forwarded) in
  sent.2 = inl (HTTPException 500 "Simulated error")
  /\ response_status sent.2 = 500
  /\ last_status sent.1 CurrentSpan = Some (StatusERROR "Simulated error")
  /\ call_issued sent.1 = false
  /\ processed.2 = inl (HTTPException 500 "Simulated processing error")
  /\ response_status processed.2 = 500
  /\ last_status processed.1 CurrentSpan = Some (StatusERROR "Simulated error").
Proof.
  intros Hs Hr Hs0 Hs1 Hr0 Hr1 Hsspan Hrspan sent processed.
  pose proof (draw_below_one _ _ Hs0 Hs1 Hs) as Hsdraw.
  pose proof (draw_below_one _ _ Hr0 Hr1 Hr) as Hrdraw.
  destruct (send_simulated_error json_dumps urlparse status_error_str
              sender_cfg ws body Hsdraw) as (Hsent & Hnone & Hsst).
  destruct (process_simulated_error receiver_cfg wr forwarded Hrdraw)
    as (Hproc & Hrst).
  subst sent processed. rewrite Hsent, Hproc.
  repeat split; auto.
Qed.

(** C6, as the code has it.  Both variants of [send_message], and both
    variants of [process_request], run the two steps in the same order on
    every request: the artificial delay first, when one is configured,
    then the draw compared with the error rate. *)
Theorem order_same_in_both_variants
    (json_dumps : pyval -> string) (urlparse : string -> Sender.ParseResult)
    (status_error_str : Sender.Response -> string)
    (metric_attr : pyval -> attr_value)
    (sender_cfg : Config) (ws : Sender.World) (ws' : LegacySender.World)
    (body : option pydict)
    (receiver_cfg : Config) (wr : Receiver.World) (wr' : LegacyReceiver.World)
    (forwarded : pydict) :
  phases (run (Sender.send_message json_dumps urlparse status_error_str
                 sender_cfg ws body)).1
  = latency_then_draw sender_cfg
  /\ phases (run (LegacySender.send_message status_error_str sender_cfg ws'
                    body)).1
     = latency_then_draw sender_cfg
  /\ phases (run (Receiver.process_request receiver_cfg wr forwarded)).1
     = latency_then_draw receiver_cfg
  /\ phases (run (LegacyReceiver.process_request metric_attr receiver_cfg wr'
                    forwarded)).1
     = latency_then_draw receiver_cfg.
Proof.
  repeat split.
  - apply sender_phases.
  - apply legacy_sender_phases.
  - apply receiver_phases.
  - apply legacy_receiver_phases.
Qed.

(** C6, as stated, fails: on the sample request, with a delay of 200 ms
    configured, both variants of [send_message] run the delay and then the
    draw; and no configuration, request and answers of the collaborators
    make the two variants of a handler run them in different orders. *)
Lemma order_does_not_differ :
  (phases (run (Sender.send_message Example.json_dumps Example.urlparse
                  Example.status_error_str Example.sender_cfg Example.world_ok
                  Example.data)).1
   = [LatencyDelay; ErrorRateDraw]
   /\ phases (run (LegacySender.send_message Example.status_error_str
                     Example.sender_cfg Example.legacy_world_ok
                     Example.data)).1
      = [LatencyDelay; ErrorRateDraw])
  /\ ~ exists (json_dumps : pyval -> string)
        (urlparse : string -> Sender.ParseResult)
        (status_error_str : Sender.Response -> string)
        (metric_attr : pyval -> attr_value)
        (sender_cfg : Config) (ws : Sender.World) (ws' : LegacySender.World)
        (body : option pydict)
        (receiver_cfg : Config) (wr : Receiver.World)
        (wr' : LegacyReceiver.World) (forwarded : pydict),
        phases (run (Sender.send_message json_dumps urlparse status_error_str
                       sender_cfg ws body)).1
        <> phases (run (LegacySender.send_message status_error_str sender_cfg
                          ws' body)).1
        \/ phases (run (Receiver.process_request receiver_cfg wr forwarded)).1
           <> phases (run (LegacyReceiver.process_request metric_attr
                             receiver_cfg wr' forwarded)).1.
Proof.
  split; [split; vm_compute; reflexivity|].
  intros (json_dumps & urlparse & status_error_str & metric_attr & sender_cfg
          & ws & ws' & body & receiver_cfg & wr & wr' & forwarded & [H|H]).
  - apply H. by rewrite sender_phases, legacy_sender_phases.
  - apply H. by rewrite receiver_phases, (legacy_receiver_phases metric_attr).
Qed.

(** The outbound calls of a run are among the calls that serialize. *)
Lemma filter_post_serializations tr :
  List.filter is_post tr = List.filter is_post (serializations tr).
Proof.
  unfold serializations.
  induction tr as [|e tr IH]; [done|]. destruct e; cbn; by rewrite ?IH.
Qed.

(** C9, as the code has it.  On a request whose outbound call is issued,
    the payload is the dict with exactly the keys request_id, tenant_id,
    sender and data; it is serialized by one [json.dumps], whose length is
    the request body size, and handed to one [post] as [json=payload],
    which encodes it once more; the client has a timeout of 10. *)
Theorem send_payload_forwarded
    (json_dumps : pyval -> string) (urlparse : string -> Sender.ParseResult)
    (status_error_str : Sender.Response -> string) (cfg : Config)
    (w : Sender.World) (data : option pydict) :
  let calls :=
    (run (Sender.send_message json_dumps urlparse status_error_str cfg w
            data)).1 in
  let payload := Sender.payload_of cfg data in
  call_issued calls = true ->
  payload = PDict [ ("request_id", Sender.request_id_of data);
                    ("tenant_id", PStr (TENANT_ID cfg));
                    ("sender", PStr (SERVICE_NAME cfg));
                    ("data", PDict (Sender.data_or_empty data)) ]
  /\ keys payload = ["request_id"; "tenant_id"; "sender"; "data"]
  /\ serializations calls
     = [ EvJsonDumps payload;
         EvPost (RECEIVER_SERVICE_URL cfg +:+ "/process") payload 10%Q ]
  /\ List.filter is_post calls
     = [ EvPost (RECEIVER_SERVICE_URL cfg +:+ "/process") payload 10%Q ].
Proof.
  intros calls payload Hissued. subst calls payload.
  apply call_issued_iff in Hissued as (Hdraw & p & Hport).
  destruct (send_forwarded json_dumps urlparse status_error_str cfg w data p
              Hdraw Hport) as (_ & Hser).
  repeat split; try done.
  rewrite filter_post_serializations, Hser. reflexivity.
Qed.

(** C9, as stated, fails: on the sample request the outbound call is
    issued and the payload is serialized twice, not once. *)
Lemma send_payload_serialized_twice :
  let calls :=
    (run (Sender.send_message Example.json_dumps Example.urlparse
            Example.status_error_str Example.sender_cfg Example.world_ok
            Example.data)).1 in
  call_issued calls = true
  /\ length (serializations calls) = 2%nat
  /\ length (serializations calls) <> 1%nat.
Proof. vm_compute. repeat split; discriminate. Qed.

(** C10, as the code has it.  The sender uses the request id "unknown"
    when the request has no body or a body without request_id; it forwards
    the empty dict as data when the request has no body or an empty one,
    and the body itself otherwise.  The receiver uses its own configured
    tenant id when the body has no tenant_id, and "unknown" for a missing
    request_id or sender, in what it logs on receipt and in the body it
    answers a processed request with. *)
Theorem missing_fields_defaults
    (json_dumps : pyval -> string) (urlparse : string -> Sender.ParseResult)
    (status_error_str : Sender.Response -> string)
    (sender_cfg : Config) (ws : Sender.World) (body : option pydict)
    (receiver_cfg : Config) (wr : Receiver.World) (forwarded : pydict) :
  let sent :=
    run (Sender.send_message json_dumps urlparse status_error_str sender_cfg
           ws body) in
  let processed := run (Receiver.process_request receiver_cfg wr forwarded) in
  let field tr msg k := extra ← logged tr msg; dict_lookup extra k in
  ((body = None \/ exists d, body = Some d /\ dict_lookup d "request_id" = None)
   -> field sent.1 "Received request to send" "request.id"
      = Some (PStr "unknown")
      /\ payload_field sender_cfg body "request_id" = Some (PStr "unknown"))
  /\ ((body = None \/ body = Some [])
      -> payload_field sender_cfg body "data" = Some (PDict []))
  /\ (forall d, body = Some d -> d <> []
      -> payload_field sender_cfg body "data" = Some (PDict d))
  /\ (call_issued sent.1 = true
      -> List.filter is_post sent.1
         = [ EvPost (RECEIVER_SERVICE_URL sender_cfg +:+ "/process")
               (Sender.payload_of sender_cfg body) 10%Q ])
  /\ (dict_lookup forwarded "tenant_id" = None
      -> field processed.1 "Received request for processing" "tenant.id"
         = Some (PStr (TENANT_ID receiver_cfg)))
  /\ (dict_lookup forwarded "request_id" = None
      -> field processed.1 "Received request for processing" "request.id"
         = Some (PStr "unknown"))
  /\ (dict_lookup forwarded "sender" = None
      -> field processed.1 "Received request for processing" "sender.service"
         = Some (PStr "unknown"))
  /\ (Qltb (Receiver.random_random wr) (ERROR_RATE receiver_cfg) = false
      -> Receiver.database_await wr = inr tt
      -> response_status processed.2 = 200
         /\ (dict_lookup forwarded "tenant_id" = None
             -> body_field processed.2 "tenant_id"
                = Some (PStr (TENANT_ID receiver_cfg)))
         /\ (dict_lookup forwarded "request_id" = None
             -> body_field processed.2 "request_id" = Some (PStr "unknown"))
         /\ (dict_lookup forwarded "sender" = None
             -> body_field processed.2 "sender" = Some (PStr "unknown"))).
Proof.
  intros sent processed field. subst sent processed field. cbv beta.
  rewrite send_logged, process_logged.
  assert (Hid : (body = None
                 \/ exists d, body = Some d /\ dict_lookup d "request_id" = None)
                -> Sender.request_id_of body = PStr "unknown").
  { intros [->|(d & -> & Hd)]; [reflexivity|].
    unfold Sender.request_id_of, dict_get. rewrite Hd. by destruct d. }
  split; [|split; [|split; [|split; [|split; [|split; [|split]]]]]].
  - intros Hbody. cbn. unfold payload_field. cbn. by rewrite (Hid Hbody).
  - by intros [->| ->].
  - intros d -> Hd. by destruct d.
  - intros Hissued.
    apply call_issued_iff in Hissued as (Hdraw & p & Hport).
    destruct (send_forwarded json_dumps urlparse status_error_str sender_cfg
                ws body p Hdraw Hport) as (_ & Hser).
    rewrite filter_post_serializations, Hser. reflexivity.
  - intros Hnone. cbn. unfold dict_get. by rewrite Hnone.
  - intros Hnone. cbn. unfold dict_get. by rewrite Hnone.
  - intros Hnone. cbn. unfold dict_get. by rewrite Hnone.
  - intros Hdraw Hawait.
    destruct (process_completes receiver_cfg wr forwarded Hdraw Hawait)
      as (-> & _).
    cbn. unfold dict_get.
    repeat split; try done; intros Hnone; by rewrite Hnone.
Qed.

(** C10, as stated, fails: a body without request_id is not forwarded as
    the empty dict. *)
Lemma send_forwards_body_without_request_id :
  dict_lookup [ ("message", PStr "hello") ] "request_id" = None
  /\ payload_field Example.sender_cfg Example.data_without_request_id
       "request_id" = Some (PStr "unknown")
  /\ payload_field Example.sender_cfg Example.data_without_request_id "data"
     = Some (PDict [ ("message", PStr "hello") ])
  /\ payload_field Example.sender_cfg Example.data_without_request_id "data"
     <> Some (PDict []).
Proof. repeat split; try reflexivity. discriminate. Qed.

(** ** The theorems at the sample requests *)

Lemma dispatch_active_requests_balanced_witness :
  let call_next :=
    Example.call_next
      (run (Sender.send_message Example.json_dumps Example.urlparse
              Example.status_error_str Example.sender_cfg
              Example.world_malformed Example.data)) in
  let calls :=
    (run (Middleware.dispatch Example.py_int Example.sender_cfg Example.clock
            Example.request call_next)).1 in
  call_next.2
  = inr {| Middleware.status_code := 502;
           Middleware.body := None;
           Middleware.content := None |}
  /\ forall k,
       gauge_value (gauge_after http_server_active_requests calls ∅) k = 0.
Proof.
  intros call_next calls. split; [reflexivity|].
  pose proof (dispatch_active_requests_balanced Example.py_int
                Example.sender_cfg Example.clock Example.request
                call_next.1 call_next.2 ∅) as H.
  destruct H as (_ & _ & _ & H).
  - vm_compute. repeat constructor.
  - intros k. vm_compute. discriminate.
  - exact H.
Defined.

Lemma send_malformed_json_502_witness :
  response_status
    (run (Sender.send_message Example.json_dumps Example.urlparse
            Example.status_error_str Example.sender_cfg
            Example.world_malformed Example.data)).2 = 502.
Proof.
  apply (send_malformed_json_502 Example.json_dumps Example.urlparse
           Example.status_error_str Example.sender_cfg Example.world_malformed
           Example.data Example.response_malformed
           "Expecting value: line 1 column 1 (char 0)").
  - vm_compute. reflexivity.
  - reflexivity.
  - cbn. lia.
  - reflexivity.
Defined.

Lemma send_upstream_error_502_witness :
  (run (Sender.send_message Example.json_dumps Example.urlparse
          Example.status_error_str Example.sender_cfg Example.world_refused
          Example.data)).2
  = inl (HTTPException 502
           "Receiver service error: All connection attempts failed").
Proof.
  apply (send_upstream_error_502 Example.json_dumps Example.urlparse
           Example.status_error_str Example.sender_cfg Example.world_refused
           Example.data "All connection attempts failed").
  - vm_compute. reflexivity.
  - left. reflexivity.
Defined.

Lemma error_rate_one_answers_500_witness :
  response_status
    (run (Sender.send_message Example.json_dumps Example.urlparse
            Example.status_error_str Example.failing_sender_cfg
            Example.world_ok Example.data)).2 = 500
  /\ response_status
       (run (Receiver.process_request Example.failing_receiver_cfg
               Example.receiver_world Example.forwarded)).2 = 500.
Proof.
  pose proof (error_rate_one_answers_500 Example.json_dumps Example.urlparse
                Example.status_error_str Example.failing_sender_cfg
                Example.world_ok Example.data Example.failing_receiver_cfg
                Example.receiver_world Example.forwarded) as H.
  cbv zeta in H.
  destruct H as (_ & Hs & _ & _ & _ & Hr & _);
    [reflexivity|reflexivity|discriminate|reflexivity|discriminate
    |reflexivity|reflexivity|reflexivity|].
  split; assumption.
Defined.

Lemma send_success_200_witness :
  body_field
    (run (Sender.send_message Example.json_dumps Example.urlparse
            Example.status_error_str Example.sender_cfg Example.world_ok
            Example.data)).2 "receiver_response"
  = Some Example.processed_body.
Proof.
  destruct (send_success_200 Example.json_dumps Example.urlparse
              Example.status_error_str Example.sender_cfg Example.world_ok
              Example.data Example.response_ok Example.processed_body
              (Some 8000))
    as (_ & _ & body & Hbody & Hfield).
  - reflexivity.
  - discriminate.
  - reflexivity.
  - reflexivity.
  - reflexivity.
  - cbn. lia.
  - reflexivity.
  - rewrite Hbody. exact Hfield.
Defined.

Lemma process_success_200_witness :
  response_status
    (run (Receiver.process_request Example.receiver_cfg Example.receiver_world
            Example.forwarded)).2 = 200.
Proof.
  apply (process_success_200 Example.receiver_cfg Example.receiver_world
           Example.forwarded
           (Receiver.processed Example.receiver_cfg (PStr "req-1")
              (PStr "tenant-a") (PStr "sender-service")
              (PDict [ ("records", PInt 7); ("status", PStr "success") ])
              (11 # 100)%Q)).
  - reflexivity.
  - reflexivity.
  - vm_compute. reflexivity.
Defined.

Lemma send_payload_forwarded_witness :
  keys (Sender.payload_of Example.sender_cfg Example.data)
  = ["request_id"; "tenant_id"; "sender"; "data"].
Proof.
  apply (send_payload_forwarded Example.json_dumps Example.urlparse
           Example.status_error_str Example.sender_cfg Example.world_ok
           Example.data).
  vm_compute. reflexivity.
Defined.

Lemma missing_fields_defaults_witness :
  payload_field Example.sender_cfg None "data" = Some (PDict [])
  /\ body_field
       (run (Receiver.process_request Example.receiver_cfg
               Example.receiver_world Example.bare)).2 "tenant_id"
     = Some (PStr "tenant-b").
Proof.
  pose proof (missing_fields_defaults Example.json_dumps Example.urlparse
                Example.status_error_str Example.sender_cfg Example.world_ok
                None Example.receiver_cfg Example.receiver_world Example.bare)
    as H.
  cbv zeta in H.
  destruct H as (_ & Hdata & _ & _ & _ & _ & _ & Hrecv). split.
  - apply Hdata. left. reflexivity.
  - destruct Hrecv as (_ & Htenant & _); [reflexivity|reflexivity|].
    apply Htenant. reflexivity.
Defined.

(** ** Spans are closed *)

#[export] Hint Unfold Endpoints.health Endpoints.prometheus_metrics : handler.

Lemma open_spans_app tr1 tr2 open :
  open_spans (tr1 ++ tr2) open = open_spans tr1 open ≫= open_spans tr2.
Proof.
  revert open. induction tr1 as [|e tr1 IH]; intros open; [reflexivity|].
  destruct e; cbn; try apply IH.
  destruct open as [|n open]; [reflexivity|].
  destruct (String.eqb n name); [apply IH|reflexivity].
Qed.

Section WellNested.
Context {S : Type}.

Lemma well_nested_ret {A} (a : A) : well_nested (mret a : M S A).
Proof. by intros s open. Qed.

Lemma well_nested_raise {A} e : well_nested (raise e : M S A).
Proof. by intros s open. Qed.

Lemma well_nested_get : well_nested (get : M S S).
Proof. by intros s open. Qed.

Lemma well_nested_modify f : well_nested (modify f : M S unit).
Proof. by intros s open. Qed.

Lemma well_nested_from_result {A} (r : result A) :
  well_nested (from_result r : M S A).
Proof. by intros s open. Qed.

Lemma well_nested_emit e :
  (forall open, open_spans [e] open = Some open) ->
  well_nested (emit e : M S unit).
Proof. intros H s open. apply H. Qed.

Lemma well_nested_bind {A B} (m : M S A) (k : A -> M S B) :
  well_nested m -> (forall a, well_nested (k a)) -> well_nested (m ≫= k).
Proof.
  intros Hm Hk s open. specialize (Hm s open).
  unfold mbind, M_bind, bind. destruct (m s) as [[t1 s1] [e|a]]; cbn in *.
  - done.
  - specialize (Hk a s1 open). destruct (k a s1) as [[t2 s2] r]; cbn in *.
    by rewrite open_spans_app, Hm.
Qed.

Lemma well_nested_when c (m : M S unit) :
  well_nested m -> well_nested (when c m).
Proof. intros H. destruct c; [done|apply well_nested_ret]. Qed.

Lemma well_nested_try_except {A} (m : M S A) h :
  well_nested m -> (forall e, well_nested (h e)) ->
  well_nested (try_except m h).
Proof.
  intros Hm Hh s open. specialize (Hm s open).
  unfold try_except. destruct (m s) as [[t1 s1] [e|a]]; cbn in *.
  - specialize (Hh e s1 open). destruct (h e s1) as [[t2 s2] r]; cbn in *.
    by rewrite open_spans_app, Hm.
  - done.
Qed.

Lemma well_nested_try_finally {A} (m : M S A) fin :
  well_nested m -> well_nested fin -> well_nested (try_finally m fin).
Proof.
  intros Hm Hf s open. specialize (Hm s open).
  unfold try_finally. destruct (m s) as [[t1 s1] r]; cbn in *.
  specialize (Hf s1 open). destruct (fin s1) as [[t2 s2] [e|[]]]; cbn in *.
  all: by rewrite open_spans_app, Hm.
Qed.

(** A [with] block ends its span on every exit of its body. *)
Lemma well_nested_with_span {A} name kind (m : M S A) :
  well_nested m -> well_nested (with_span name kind m).
Proof.
  intros Hm s open. specialize (Hm s (name :: open)).
  unfold with_span, bind, try_finally, emit.
  destruct (m s) as [[t1 s1] r]; cbn in *.
  rewrite open_spans_app, Hm. cbn. by rewrite String.eqb_refl.
Qed.
End WellNested.

Lemma well_nested_with_locals {S S' A} (init : S') (m : M S' A) :
  well_nested m -> well_nested (with_locals init m : M S A).
Proof.
  intros Hm s open. specialize (Hm init open). unfold with_locals.
  by destruct (m init) as [[t s'] r].
Qed.

Ltac nested_step :=
  lazymatch goal with
  | |- well_nested (_ ≫= _) => apply well_nested_bind; [|intros ?]
  | |- well_nested (mret _) => apply well_nested_ret
  | |- well_nested (raise _) => apply well_nested_raise
  | |- well_nested get => apply well_nested_get
  | |- well_nested (modify _) => apply well_nested_modify
  | |- well_nested (from_result _) => apply well_nested_from_result
  | |- well_nested (when _ _) => apply well_nested_when
  | |- well_nested (try_except _ _) => apply well_nested_try_except; [|intros ?]
  | |- well_nested (try_finally _ _) => apply well_nested_try_finally
  | |- well_nested (with_locals _ _) => apply well_nested_with_locals
  | |- well_nested (with_span _ _ _) => apply well_nested_with_span
  | |- well_nested (emit _) => apply well_nested_emit; intros ?; reflexivity
  | |- well_nested (set_attribute _ _ _) =>
      apply well_nested_emit; intros ?; reflexivity
  | |- well_nested (set_status _ _) =>
      apply well_nested_emit; intros ?; reflexivity
  | |- well_nested (record_exception _ _) =>
      apply well_nested_emit; intros ?; reflexivity
  | |- well_nested (log _ _ _ _) =>
      apply well_nested_emit; intros ?; reflexivity
  | |- well_nested (sleep _) => apply well_nested_emit; intros ?; reflexivity
  | |- well_nested (match ?x with _ => _ end) => destruct x
  | |- well_nested (let _ := _ in _) => cbv zeta
  end.

(** X1.  Every run of the four request handlers ends each span it starts,
    innermost first, whatever the outcome: it starts and ends with no span
    of its own open. *)
Theorem handlers_close_their_spans
    (json_dumps : pyval -> string) (urlparse : string -> Sender.ParseResult)
    (status_error_str : Sender.Response -> string)
    (metric_attr : pyval -> attr_value)
    (cfg : Config) (ws : Sender.World) (ws' : LegacySender.World)
    (wr : Receiver.World) (wr' : LegacyReceiver.World)
    (body : option pydict) (forwarded : pydict) :
  open_spans
    (run (Sender.send_message json_dumps urlparse status_error_str cfg ws
            body)).1 [] = Some []
  /\ open_spans (run (Receiver.process_request cfg wr forwarded)).1 []
     = Some []
  /\ open_spans
       (run (LegacySender.send_message status_error_str cfg ws' body)).1 []
     = Some []
  /\ open_spans
       (run (LegacyReceiver.process_request metric_attr cfg wr' forwarded)).1
       [] = Some [].
Proof.
  assert (Hrun : forall A (m : M unit A),
             well_nested m -> open_spans (run m).1 [] = Some []).
  { intros A m Hm. specialize (Hm tt []). unfold run.
    by destruct (m tt) as [[t s] r]. }
  repeat split; apply Hrun.
  - unfold Sender.send_message, Sender.raise_for_status, Sender.post.
    repeat nested_step.
  - unfold Receiver.process_request, Receiver.simulate_database_call.
    repeat nested_step.
  - unfold LegacySender.send_message, Sender.raise_for_status,
      LegacySender.post.
    repeat nested_step.
  - unfold LegacyReceiver.process_request,
      LegacyReceiver.simulate_database_call.
    repeat nested_step.
Qed.

(** ** The sender: outcomes and client metrics *)

Lemma net_amount_calls_on i k tr :
  net_amount i k tr = net_amount i k (calls_on i tr).
Proof.
  unfold calls_on. induction tr as [|e tr IH]; [reflexivity|].
  destruct e; cbn; try assumption.
  - destruct (decide (i0 = i)) as [->|Hne].
    + rewrite bool_decide_eq_true_2 by done. cbn.
      rewrite (decide_True (P := i = i)) by done. by rewrite IH.
    + rewrite bool_decide_eq_false_2 by done. rewrite IH. lia.
  - destruct (bool_decide (i0 = i)); cbn; assumption.
Qed.

Section SenderRuns.
Import Sender.
Variable json_dumps : pyval -> string.
Variable urlparse : string -> ParseResult.
Variable status_error_str : Response -> string.
Variable cfg : Config.
Variable w : World.

Local Abbreviation send :=
  (send_message json_dumps urlparse status_error_str cfg w).

(** A run that issues the outbound call: its outcome, and its calls on
    the client counter and on the client duration histogram. *)
Lemma send_forwarded_summary data p :
  Qltb (random_random w) (ERROR_RATE cfg) = false ->
  port (urlparse (RECEIVER_SERVICE_URL cfg)) = inr p ->
  (run (send data)).2 = forward_outcome status_error_str cfg (client_post w)
  /\ calls_on http_client_active_requests (run (send data)).1
     = [ EvAdd http_client_active_requests 1
           (client_key urlparse cfg (int_or p 8000));
         EvAdd http_client_active_requests (-1)
           (client_key urlparse cfg (int_or p 8000)) ]
  /\ calls_on http_client_request_duration (run (send data)).1
     = [ EvRecord http_client_request_duration
           (now_client_end w - now_client_start w)%Q
           (client_attributes urlparse cfg (int_or p 8000)
              (client_status (client_post w))) ].
Proof.
  intros Hdraw Hport. unfold send_message, forward_outcome, client_status.
  rewrite Hdraw, Hport.
  destruct (current_span w), (0 <? LATENCY_MS cfg); mstep.
  all: repeat (mcase; mstep); repeat split; reflexivity.
Qed.

(** A run that does not issue the outbound call touches no client
    instrument. *)
Lemma send_simulated_error_silent data i :
  Qltb (random_random w) (ERROR_RATE cfg) = true ->
  (i = http_client_active_requests \/ i = http_client_request_duration) ->
  calls_on i (run (send data)).1 = [].
Proof.
  intros Hdraw Hi. unfold send_message. rewrite Hdraw.
  destruct (current_span w), (0 <? LATENCY_MS cfg); mstep.
  all: by destruct Hi as [-> | ->].
Qed.

(** A run that cannot read the port of the receiver URL. *)
Lemma send_unreadable_port_summary data e :
  Qltb (random_random w) (ERROR_RATE cfg) = false ->
  port (urlparse (RECEIVER_SERVICE_URL cfg)) = inl e ->
  (run (send data)).2 = forward_outcome status_error_str cfg (inl e)
  /\ calls_on http_client_active_requests (run (send data)).1 = []
  /\ calls_on http_client_request_duration (run (send data)).1 = []
  /\ (is_Exception e = true -> is_HTTPException e = false ->
      recorded_exceptions (run (send data)).1 (Named "call_receiver") = [e]
      /\ last_status (run (send data)).1 (Named "call_receiver")
         = Some (StatusERROR (exn_str e))).
Proof.
  intros Hdraw Hport. unfold send_message, forward_outcome.
  rewrite Hdraw, Hport.
  destruct (current_span w), (0 <? LATENCY_MS cfg), e; mstep.
  all: repeat split; try done.
  all: by rewrite ?decide_True by done.
Qed.
End SenderRuns.

Section SenderExtras.
Import Sender.
Variable json_dumps : pyval -> string.
Variable urlparse : string -> ParseResult.
Variable status_error_str : Response -> string.
Variable cfg : Config.
Variable w : World.

Local Abbreviation send :=
  (send_message json_dumps urlparse status_error_str cfg w).

(** X2.  On every run of [send_message] the client counter
    [http.client.active_requests] is left where it was for every
    attribute set: a run that does not issue the outbound call does not
    touch it, and a run that issues it adds 1 and then -1 under one and
    the same attribute set, whatever the call gives. *)
Theorem send_client_counter_balanced (data : option pydict)
    (k : attributes) :
  net_amount http_client_active_requests k (run (send data)).1 = 0
  /\ (call_issued (run (send data)).1 = false ->
      calls_on http_client_active_requests (run (send data)).1 = [])
  /\ (call_issued (run (send data)).1 = true ->
      exists key,
        calls_on http_client_active_requests (run (send data)).1
        = [ EvAdd http_client_active_requests 1 key;
            EvAdd http_client_active_requests (-1) key ]).
Proof.
  rewrite net_amount_calls_on.
  destruct (Qltb (random_random w) (ERROR_RATE cfg)) eqn:Hdraw.
  { destruct (send_simulated_error json_dumps urlparse status_error_str cfg w
                data Hdraw) as (_ & Hnone & _).
    rewrite (send_simulated_error_silent json_dumps urlparse status_error_str
               cfg w data _ Hdraw) by auto.
    split; [done|]. split; [done|]. intros H. congruence. }
  destruct (port (urlparse (RECEIVER_SERVICE_URL cfg))) as [e|p] eqn:Hport.
  { destruct (send_unreadable_port_summary json_dumps urlparse
                status_error_str cfg w data e Hdraw Hport) as (_ & -> & _).
    pose proof (send_unreadable_port json_dumps urlparse status_error_str cfg
                  w data e Hdraw Hport) as Hnone.
    split; [done|]. split; [done|]. intros H. congruence. }
  destruct (send_forwarded_summary json_dumps urlparse status_error_str cfg w
              data p Hdraw Hport) as (_ & -> & _).
  destruct (send_forwarded json_dumps urlparse status_error_str cfg w data p
              Hdraw Hport) as (Hissued & _).
  split; [|split].
  - cbn. rewrite !(decide_True (P := http_client_active_requests
                                     = http_client_active_requests)) by done.
    destruct (decide (client_key urlparse cfg (int_or p 8000) = k)); lia.
  - intros H. congruence.
  - intros _. eauto.
Qed.

(** X3.  A run that issues the outbound call records the client duration
    histogram exactly once, with the time between the two clock readings
    around the call; its http.response.status_code attribute is the
    status of the answer when there is one, also when it is not 2xx, and
    500 when the call raised. *)
Theorem send_client_duration_status (data : option pydict) :
  call_issued (run (send data)).1 = true ->
  exists attrs,
    calls_on http_client_request_duration (run (send data)).1
    = [ EvRecord http_client_request_duration
          (now_client_end w - now_client_start w)%Q attrs ]
    /\ attr_lookup attrs "http.response.status_code"
       = Some (AInt match client_post w with
                    | inr response => status_code response
                    | inl _ => 500
                    end).
Proof.
  intros Hissued.
  apply call_issued_iff in Hissued as (Hdraw & p & Hport).
  destruct (send_forwarded_summary json_dumps urlparse status_error_str cfg w
              data p Hdraw Hport) as (_ & _ & ->).
  eexists. split; reflexivity.
Qed.

(** X4.  The answer to a request whose outbound call is issued depends
    only on what the call gave: a 2xx answer that parses gives the success
    body; a 2xx answer whose parsing raises [ValueError] gives 502
    "Invalid JSON response from receiver"; an [httpx.HTTPError] or a
    status outside 2xx gives 502 "Receiver service error"; any other
    [Exception] gives 500 "Internal error"; a cancellation is raised
    again unchanged. *)
Theorem send_answer_by_outcome_of_call (data : option pydict) :
  call_issued (run (send data)).1 = true ->
  (run (send data)).2 = forward_outcome status_error_str cfg (client_post w).
Proof.
  intros Hissued.
  apply call_issued_iff in Hissued as (Hdraw & p & Hport).
  by destruct (send_forwarded_summary json_dumps urlparse status_error_str
                 cfg w data p Hdraw Hport) as (-> & _).
Qed.

(** X5.  When the libraries raise no [fastapi.HTTPException] of their
    own, [send_message] raises nothing but an [HTTPException] with status
    500 or 502, or a cancellation: POST /send is answered 200, 500 or
    502, and no [httpx] error or [ValueError] leaves the handler. *)
Theorem send_answers_200_500_502 (data : option pydict) :
  no_http_exception (port (urlparse (RECEIVER_SERVICE_URL cfg))) ->
  no_http_exception (client_post w) ->
  (forall response, client_post w = inr response ->
                    no_http_exception (json response)) ->
  raises_only_status [500; 502] (run (send data)).2
  /\ response_status (run (send data)).2 ∈ [200; 500; 502].
Proof.
  intros Hport Hpost Hjson.
  assert (Hshape : raises_only_status [500; 502] (run (send data)).2).
  { destruct (Qltb (random_random w) (ERROR_RATE cfg)) eqn:Hdraw.
    { destruct (send_simulated_error json_dumps urlparse status_error_str cfg
                  w data Hdraw) as (-> & _). cbn. set_solver. }
    destruct (port (urlparse (RECEIVER_SERVICE_URL cfg))) as [e|p] eqn:Ep.
    { destruct (send_unreadable_port_summary json_dumps urlparse
                  status_error_str cfg w data e Hdraw Ep) as (-> & _).
      destruct e; cbn in *; try done; set_solver. }
    destruct (send_forwarded_summary json_dumps urlparse status_error_str cfg
                w data p Hdraw Ep) as (-> & _).
    unfold forward_outcome.
    destruct (client_post w) as [e|response] eqn:Epost.
    { destruct e; cbn in *; try done; set_solver. }
    specialize (Hjson response eq_refl).
    destruct ((200 <=? status_code response) && (status_code response <=? 299));
      [|cbn; set_solver].
    destruct (json response) as [e|v]; [|done].
    destruct e; cbn in *; try done; set_solver. }
  split; [done|].
  destruct (run (send data)).2 as [e|v]; [|apply list_elem_of_here].
  destruct e; cbn in *; try done.
  - apply elem_of_cons. right. exact Hshape.
  - apply elem_of_cons. right. apply list_elem_of_here.
Qed.

End SenderExtras.

Lemma send_client_duration_status_witness :
  exists attrs,
    calls_on http_client_request_duration
      (run (Sender.send_message Example.json_dumps Example.urlparse
              Example.status_error_str Example.sender_cfg
              Example.world_refused Example.data)).1
    = [ EvRecord http_client_request_duration 1%Q attrs ]
    /\ attr_lookup attrs "http.response.status_code" = Some (AInt 500).
Proof.
  destruct (send_client_duration_status Example.json_dumps Example.urlparse
              Example.status_error_str Example.sender_cfg
              Example.world_refused Example.data) as (attrs & H1 & H2).
  - vm_compute. reflexivity.
  - exists attrs. split; [|exact H2].
    rewrite H1. vm_compute. reflexivity.
Defined.

Lemma send_answer_by_outcome_of_call_witness :
  (run (Sender.send_message Example.json_dumps Example.urlparse
          Example.status_error_str Example.sender_cfg Sample.world_unavailable
          Example.data)).2
  = inl (HTTPException 502
           "Receiver service error: Server error for url http://receiver-service:8000/process").
Proof.
  rewrite (send_answer_by_outcome_of_call Example.json_dumps Example.urlparse
             Example.status_error_str Example.sender_cfg
             Sample.world_unavailable Example.data).
  - reflexivity.
  - vm_compute. reflexivity.
Defined.

Lemma send_answers_200_500_502_witness :
  response_status
    (run (Sender.send_message Example.json_dumps Example.urlparse
            Example.status_error_str Example.sender_cfg
            Example.world_malformed Example.data)).2 ∈ [200; 500; 502].
Proof.
  apply (send_answers_200_500_502 Example.json_dumps Example.urlparse
           Example.status_error_str Example.sender_cfg Example.world_malformed
           Example.data).
  - exact I.
  - exact I.
  - intros response H. injection H as <-. reflexivity.
Defined.


(** ** The receiver: faults and telemetry *)

Section ReceiverExtras.
Import Receiver.
Variable cfg : Config.
Variable w : World.

(** A run that passes the check and in which the await raises. *)
Lemma process_fault_summary data e :
  Qltb (random_random w) (ERROR_RATE cfg) = false ->
  database_await w = inl e ->
  (run (process_request cfg w data)).2
  = (if is_Exception e && negb (is_HTTPException e)
     then inl (HTTPException 500 ("Processing error: " +:+ exn_str e))
     else inl e)
  /\ last_status (run (process_request cfg w data)).1 (Named "process_data")
     = None
  /\ (current_span w = true ->
      is_Exception e && negb (is_HTTPException e) = true ->
      recorded_exceptions (run (process_request cfg w data)).1 CurrentSpan
      = [e]
      /\ last_status (run (process_request cfg w data)).1 CurrentSpan
         = Some (StatusERROR (exn_str e))).
Proof.
  intros Hdraw Hawait. unfold process_request. rewrite Hdraw.
  destruct (current_span w), (0 <? LATENCY_MS cfg); mstep.
  all: rewrite Hawait; destruct e; mstep.
  all: repeat split; done.
Qed.

(** X7.  When the draw passes and the simulated database call raises an
    [Exception] other than [HTTPException], POST /process is answered 500
    "Processing error" with the text of the exception; the exception is
    recorded on the server span, whose status is set to ERROR, and the
    process_data span is never marked OK. *)
Theorem process_unexpected_error_500 (data : pydict) (e : exn) :
  current_span w = true ->
  Qltb (random_random w) (ERROR_RATE cfg) = false ->
  database_await w = inl e ->
  is_Exception e = true ->
  is_HTTPException e = false ->
  (run (process_request cfg w data)).2
  = inl (HTTPException 500 ("Processing error: " +:+ exn_str e))
  /\ response_status (run (process_request cfg w data)).2 = 500
  /\ recorded_exceptions (run (process_request cfg w data)).1 CurrentSpan
     = [e]
  /\ last_status (run (process_request cfg w data)).1 CurrentSpan
     = Some (StatusERROR (exn_str e))
  /\ last_status (run (process_request cfg w data)).1 (Named "process_data")
     = None.
Proof.
  intros Hspan Hdraw Hawait He Hh.
  destruct (process_fault_summary data e Hdraw Hawait) as (Hrun & Hpd & Hsrv).
  rewrite He, Hh in Hrun, Hsrv. cbn in Hrun, Hsrv.
  destruct (Hsrv Hspan eq_refl) as (Hrec & Hst).
  rewrite Hrun. done.
Qed.

(** X8.  When the await raises no [fastapi.HTTPException] of its own,
    [process_request] raises nothing but an [HTTPException] with status
    500, or a cancellation: POST /process is answered 200 or 500. *)
Theorem process_answers_200_or_500 (data : pydict) :
  no_http_exception (database_await w) ->
  raises_only_status [500] (run (process_request cfg w data)).2
  /\ response_status (run (process_request cfg w data)).2 ∈ [200; 500].
Proof.
  intros Hawait.
  destruct (Qltb (random_random w) (ERROR_RATE cfg)) eqn:Hdraw.
  { destruct (process_simulated_error cfg w data Hdraw) as (-> & _).
    split; [apply list_elem_of_here|].
    apply elem_of_cons. right. apply list_elem_of_here. }
  destruct (database_await w) as [e|[]] eqn:Ea.
  - destruct (process_fault_summary data e Hdraw Ea) as (-> & _).
    destruct e; cbn in *; try done.
    all: split; try done; try apply list_elem_of_here.
    all: apply elem_of_cons; right; apply list_elem_of_here.
  - destruct (process_completes cfg w data Hdraw Ea) as (-> & _).
    split; [done|apply list_elem_of_here].
Qed.

(** X9.  On a request that passes the check and completes, the response
    agrees with the telemetry: the record count of database_result is the
    app.db.records.count attribute of the database_query span, and
    processing_time_seconds is the app.processing.duration_seconds
    attribute of the process_data span, the time between the two clock
    readings; the handler sleeps the artificial latency when one is
    configured, then the configured processing time, then 10 ms. *)
Theorem process_response_matches_telemetry (data : pydict) :
  Qltb (random_random w) (ERROR_RATE cfg) = false ->
  database_await w = inr tt ->
  let calls := (run (process_request cfg w data)).1 in
  let answer := (run (process_request cfg w data)).2 in
  let duration := (now_processed w - now_start w)%Q in
  body_field answer "database_result"
  = Some (PDict [ ("records", PInt (random_randint w));
                  ("status", PStr "success") ])
  /\ EvSetAttribute (Named "database_query") "app.db.records.count"
       (PInt (random_randint w)) ∈ calls
  /\ body_field answer "processing_time_seconds" = Some (PFloat duration)
  /\ EvSetAttribute (Named "process_data") "app.processing.duration_seconds"
       (PFloat duration) ∈ calls
  /\ List.filter is_sleep calls
     = (if 0 <? LATENCY_MS cfg
        then [EvSleep (inject_Z (LATENCY_MS cfg) / 1000)%Q] else [])
       ++ [ EvSleep (inject_Z (PROCESSING_TIME_MS cfg) / 1000)%Q;
            EvSleep (1 # 100)%Q ].
Proof.
  intros Hdraw Hawait calls answer duration. subst calls answer duration.
  unfold process_request. rewrite Hdraw.
  destruct (current_span w), (0 <? LATENCY_MS cfg); mstep.
  all: rewrite Hawait; mstep.
  all: repeat split; try reflexivity.
  all: repeat first [apply list_elem_of_here | apply list_elem_of_further].
Qed.
End ReceiverExtras.

Lemma process_unexpected_error_500_witness :
  (run (Receiver.process_request Example.receiver_cfg
          Sample.receiver_world_fault Example.forwarded)).2
  = inl (HTTPException 500 "Processing error: connection reset").
Proof.
  apply (process_unexpected_error_500 Example.receiver_cfg
           Sample.receiver_world_fault Example.forwarded
           (OtherException "connection reset")); reflexivity.
Defined.

Lemma process_answers_200_or_500_witness :
  response_status
    (run (Receiver.process_request Example.receiver_cfg
            Sample.receiver_world_fault Example.forwarded)).2 ∈ [200; 500].
Proof.
  apply (process_answers_200_or_500 Example.receiver_cfg
           Sample.receiver_world_fault Example.forwarded).
  reflexivity.
Defined.

Lemma process_response_matches_telemetry_witness :
  body_field
    (run (Receiver.process_request Example.receiver_cfg Example.receiver_world
            Example.forwarded)).2 "processing_time_seconds"
  = Some (PFloat (10 + (11 # 100) - 10)%Q).
Proof.
  apply (process_response_matches_telemetry Example.receiver_cfg
           Example.receiver_world Example.forwarded); reflexivity.
Defined.

(** ** The older variants: request and error counters *)

Section LegacyCounters.
Variable status_error_str : Sender.Response -> string.
Variable metric_attr : pyval -> attr_value.
Variable cfg : Config.

(** X10.  The older sender counts every request once: a request that is
    answered 200 adds 1 to requests_total with status success and records
    request_duration once, the time between the two clock readings; a
    request that ends in an [HTTPException] adds 1 to errors_total, with
    error_type http_error when it is answered 502, and simulated or
    unknown when it is answered 500, and records no duration; a cancelled
    request touches none of the three.  Nothing else is raised. *)
Theorem legacy_send_counts_request_once (w : LegacySender.World)
    (data : option pydict) :
  let calls :=
    (run (LegacySender.send_message status_error_str cfg w data)).1 in
  let key := [ ("tenant_id", AStr (TENANT_ID cfg));
               ("service", AStr (SERVICE_NAME cfg)) ] in
  match (run (LegacySender.send_message status_error_str cfg w data)).2 with
  | inr _ =>
      calls_on requests_total calls
      = [EvAdd requests_total 1 (key ++ [("status", AStr "success")])]
      /\ calls_on errors_total calls = []
      /\ calls_on request_duration calls
         = [EvRecord request_duration
              (LegacySender.now_end w - LegacySender.now_start w)%Q key]
  | inl (HTTPException sc _) =>
      calls_on requests_total calls = []
      /\ calls_on request_duration calls = []
      /\ exists ty,
           calls_on errors_total calls
           = [EvAdd errors_total 1 (key ++ [("error_type", AStr ty)])]
           /\ (sc = 502 /\ ty = "http_error"
               \/ sc = 500 /\ (ty = "simulated" \/ ty = "unknown"))
  | inl CancelledError =>
      calls_on requests_total calls = []
      /\ calls_on errors_total calls = []
      /\ calls_on request_duration calls = []
  | inl _ => False
  end.
Proof.
  intros calls key. subst calls key.
  unfold LegacySender.send_message, LegacySender.post,
    Sender.raise_for_status.
  destruct (LegacySender.current_span w), (0 <? LATENCY_MS cfg),
    (Qltb (LegacySender.random_random w) (ERROR_RATE cfg)); mstep.
  all: try (split; [reflexivity|]; split; [reflexivity|];
            exists "simulated"; split; [reflexivity|]; right; by auto).
  all: destruct (LegacySender.client_post w) as [e|response];
    [destruct e|]; mstep.
  all: try (split; [reflexivity|]; split; [reflexivity|]; reflexivity).
  all: try (split; [reflexivity|]; split; [reflexivity|];
            exists "http_error"; split; [reflexivity|]; left; by auto).
  all: try (split; [reflexivity|]; split; [reflexivity|];
            exists "unknown"; split; [reflexivity|]; right; by auto).
  all: destruct ((200 <=? Sender.status_code response)
                 && (Sender.status_code response <=? 299)); mstep.
  all: try (split; [reflexivity|]; split; [reflexivity|];
            exists "http_error"; split; [reflexivity|]; left; by auto).
  all: destruct (Sender.json response) as [e|result]; [destruct e|]; mstep.
  all: try (split; [reflexivity|]; split; [reflexivity|]; reflexivity).
  all: try (split; [reflexivity|]; split; [reflexivity|];
            exists "http_error"; split; [reflexivity|]; left; by auto).
  all: try (split; [reflexivity|]; split; [reflexivity|];
            exists "unknown"; split; [reflexivity|]; right; by auto).
Qed.

(** X11.  The older receiver counts under the tenant id of the request
    body, and under its own only when the body has none: when the await
    raises no [HTTPException] of its own, a request answered 200 adds 1 to
    requests_total with status success and records processing_time and
    request_duration once each; a request that ends in an [HTTPException]
    is answered 500, adds 1 to errors_total with error_type simulated or
    unknown, and records nothing; a cancelled request touches none of
    the four. *)
Theorem legacy_process_counts_request_once (w : LegacyReceiver.World)
    (data : pydict) :
  no_http_exception (LegacyReceiver.database_await w) ->
  let calls :=
    (run (LegacyReceiver.process_request metric_attr cfg w data)).1 in
  let key :=
    [ ("tenant_id",
       metric_attr (dict_get data "tenant_id" (PStr (TENANT_ID cfg))));
      ("service", AStr (SERVICE_NAME cfg)) ] in
  match (run (LegacyReceiver.process_request metric_attr cfg w data)).2 with
  | inr _ =>
      calls_on requests_total calls
      = [EvAdd requests_total 1 (key ++ [("status", AStr "success")])]
      /\ calls_on errors_total calls = []
      /\ calls_on processing_time calls
         = [EvRecord processing_time
              (LegacyReceiver.now_processed w - LegacyReceiver.now_start w)%Q
              key]
      /\ calls_on request_duration calls
         = [EvRecord request_duration
              (LegacyReceiver.now_total w - LegacyReceiver.now_start w)%Q key]
  | inl (HTTPException sc _) =>
      sc = 500
      /\ calls_on requests_total calls = []
      /\ calls_on processing_time calls = []
      /\ calls_on request_duration calls = []
      /\ exists ty,
           calls_on errors_total calls
           = [EvAdd errors_total 1 (key ++ [("error_type", AStr ty)])]
           /\ (ty = "simulated" \/ ty = "unknown")
  | inl CancelledError =>
      calls_on requests_total calls = []
      /\ calls_on errors_total calls = []
      /\ calls_on processing_time calls = []
      /\ calls_on request_duration calls = []
  | inl _ => False
  end.
Proof.
  intros Hawait calls key. subst calls key.
  unfold LegacyReceiver.process_request,
    LegacyReceiver.simulate_database_call.
  destruct (LegacyReceiver.current_span w), (0 <? LATENCY_MS cfg),
    (Qltb (LegacyReceiver.random_random w) (ERROR_RATE cfg)); mstep.
  all: try (split; [reflexivity|]; split; [reflexivity|];
            split; [reflexivity|]; split; [reflexivity|];
            exists "simulated"; split; [reflexivity|]; by auto).
  all: destruct (LegacyReceiver.database_await w) as [e|[]];
    [destruct e; try discriminate Hawait|]; mstep.
  all: try (split; [reflexivity|]; split; [reflexivity|];
            split; [reflexivity|]; reflexivity).
  all: try (split; [reflexivity|]; split; [reflexivity|];
            split; [reflexivity|]; split; [reflexivity|];
            exists "unknown"; split; [reflexivity|]; by auto).
Qed.
End LegacyCounters.

Lemma legacy_process_counts_request_once_witness :
  calls_on requests_total
    (run (LegacyReceiver.process_request Sample.metric_attr
            Example.receiver_cfg Sample.legacy_receiver_world
            Example.forwarded)).1
  = [EvAdd requests_total 1
       [ ("tenant_id", AStr "tenant-a"); ("service", AStr "receiver-service");
         ("status", AStr "success") ]].
Proof.
  pose proof (legacy_process_counts_request_once Sample.metric_attr
                Example.receiver_cfg Sample.legacy_receiver_world
                Example.forwarded I) as H.
  exact (proj1 H).
Defined.

(** ** The middleware: body sizes *)

Lemma len_truthy s : str_truthy s = true -> 0 < len s.
Proof. destruct s; [discriminate|]. intros _. unfold len. cbn. lia. Qed.

Lemma str_truthy_ne s : str_truthy s = true <-> s <> "".
Proof. destruct s; cbn; split; (done || congruence). Qed.

Section MiddlewareSizes.
Import Middleware MiddlewareExit.
Variable py_int : string -> option Z.
Variable cfg : Config.
Variable clock : Clock.

Lemma elem_of_size_record i sz attrs e :
  e ∈ size_record i sz attrs
  <-> exists n, sz = Some n /\ 0 < n /\ e = EvRecord i (inject_Z n) attrs.
Proof.
  unfold size_record. destruct sz as [n|].
  - destruct (0 <? n) eqn:Hn.
    + apply Z.ltb_lt in Hn. rewrite list_elem_of_singleton. split.
      * intros ->. by exists n.
      * by intros (n' & [= <-] & _ & ->).
    + apply Z.ltb_ge in Hn. split; [by intros ?%elem_of_nil|].
      intros (n' & [= <-] & ? & _). lia.
  - split; [by intros ?%elem_of_nil|]. by intros (n & [=] & _).
Qed.

(** X12.  Among the calls [dispatch] makes itself, the size of the
    request body is recorded exactly when the request has a non-empty
    content-length header that reads as an integer above 0; the value
    recorded is that integer, and the attributes are those of the
    duration record.  A header that does not read as an integer is
    passed over, and the request is served all the same. *)
Theorem dispatch_request_size_recorded_iff (request : Request)
    (tr : list event) (r : result Response) :
  exists own,
    run (dispatch py_int cfg clock request (tr, r))
    = (EvAdd http_server_active_requests 1 (active_requests_key cfg request)
         :: tr ++ own, r)
    /\ (forall v attrs,
          EvRecord http_server_request_body_size v attrs ∈ own
          <-> exists h n,
                content_length request = Some h /\ h <> ""
                /\ py_int h = Some n /\ 0 < n /\ v = inject_Z n
                /\ attrs = duration_attributes cfg request
                             (recorded_status r))
    /\ (length (calls_on http_server_request_body_size own) <= 1)%nat.
Proof.
  exists (exit_events py_int cfg clock request r).
  split; [apply dispatch_run|]. unfold exit_events.
  set (attrs0 := duration_attributes cfg request (recorded_status r)).
  split.
  - intros v attrs. rewrite !elem_of_cons, elem_of_app, !elem_of_size_record.
    unfold recorded_request_size. split.
    + intros [[=]|[[=]|[(n & Hsz & Hn & [= -> ->])|(n & _ & _ & [=])]]].
      destruct (content_length request) as [h|]; [|done].
      destruct (str_truthy h) eqn:Hh; [|done].
      exists h, n. by rewrite <- str_truthy_ne.
    + intros (h & n & -> & Hh%str_truthy_ne & Hint & Hn & -> & ->).
      right. right. left. exists n. by rewrite Hh.
  - unfold calls_on, size_record. clearbody attrs0.
    destruct (recorded_request_size py_int request) as [n|],
      (recorded_response_size r) as [m|];
      repeat match goal with
             | |- context [0 <? ?n] => destruct (0 <? n)
             end; vm_compute; lia.
Qed.

(** X13.  Among the calls [dispatch] makes itself, the size of the
    response body is recorded exactly when [call_next] returns a response
    with a non-empty [body], or without one and with a non-empty
    [content]; the value is the length of [body] in the first case and of
    [content] in the second.  When [call_next] raises, nothing is recorded
    on that histogram. *)
Theorem dispatch_response_size_recorded_iff (request : Request)
    (tr : list event) (r : result Response) :
  exists own,
    run (dispatch py_int cfg clock request (tr, r))
    = (EvAdd http_server_active_requests 1 (active_requests_key cfg request)
         :: tr ++ own, r)
    /\ (forall v attrs,
          EvRecord http_server_response_body_size v attrs ∈ own
          <-> exists response s,
                r = inr response
                /\ (body response = Some s /\ s <> ""
                    \/ has_truthy (body response) = false
                       /\ content response = Some s /\ s <> "")
                /\ v = inject_Z (len s)
                /\ attrs = duration_attributes cfg request
                             (status_code response))
    /\ (forall e, r = inl e ->
          calls_on http_server_response_body_size own = []).
Proof.
  exists (exit_events py_int cfg clock request r).
  split; [apply dispatch_run|]. unfold exit_events.
  set (attrs0 := duration_attributes cfg request (recorded_status r)).
  split.
  - intros v attrs. rewrite !elem_of_cons, elem_of_app, !elem_of_size_record.
    unfold recorded_response_size. split.
    + intros [[=]|[[=]|[(n & _ & _ & [=])|(n & Hsz & Hn & [= -> ->])]]].
      destruct r as [e|response]; [done|]. exists response.
      destruct (body response) as [b|] eqn:Hb; cbn in Hsz.
      * destruct (str_truthy b) eqn:Htb.
        { injection Hsz as <-. exists b. split; [done|].
          split; [|done]. left. by rewrite <- str_truthy_ne. }
        destruct (content response) as [c|] eqn:Hc; cbn in Hsz; [|done].
        destruct (str_truthy c) eqn:Htc; [|done].
        injection Hsz as <-. exists c. split; [done|].
        split; [|done]. right. by rewrite <- str_truthy_ne.
      * destruct (content response) as [c|] eqn:Hc; cbn in Hsz; [|done].
        destruct (str_truthy c) eqn:Htc; [|done].
        injection Hsz as <-. exists c. split; [done|].
        split; [|done]. right. by rewrite <- str_truthy_ne.
    + intros (response & s & -> & Hs & -> & ->).
      right. right. right. exists (len s).
      destruct Hs as [[Hb Hs]|(Hnb & Hc & Hs)].
      * apply str_truthy_ne in Hs. rewrite Hb. cbn. rewrite Hs.
        split; [done|]. split; [by apply len_truthy|done].
      * apply str_truthy_ne in Hs. rewrite Hnb, Hc. cbn. rewrite Hs.
        split; [done|]. split; [by apply len_truthy|done].
  - intros e ->. unfold calls_on, size_record. clearbody attrs0.
    destruct (recorded_request_size py_int request) as [n|]; [|reflexivity].
    destruct (0 <? n); reflexivity.
Qed.
End MiddlewareSizes.

(** ** The sender: body sizes of the outbound call *)

Section SenderSizes.
Import Sender.
Variable json_dumps : pyval -> string.
Variable urlparse : string -> ParseResult.
Variable status_error_str : Response -> string.
Variable cfg : Config.
Variable w : World.

Local Abbreviation send :=
  (send_message json_dumps urlparse status_error_str cfg w).

(** A run that issues the outbound call: its calls on the two client
    size histograms. *)
Lemma send_forwarded_sizes data p :
  Qltb (random_random w) (ERROR_RATE cfg) = false ->
  port (urlparse (RECEIVER_SERVICE_URL cfg)) = inr p ->
  let attrs :=
    client_attributes urlparse cfg (int_or p 8000)
      (client_status (client_post w)) in
  calls_on http_client_request_body_size (run (send data)).1
  = (if 0 <? len (json_dumps (payload_of cfg data))
     then [ EvRecord http_client_request_body_size
              (inject_Z (len (json_dumps (payload_of cfg data)))) attrs ]
     else [])
  /\ calls_on http_client_response_body_size (run (send data)).1
     = match client_post w with
       | inr response =>
           match content response with
           | Some c =>
               if 0 <? len c
               then [ EvRecord http_client_response_body_size
                        (inject_Z (len c)) attrs ]
               else []
           | None => []
           end
       | inl _ => []
       end.
Proof.
  intros Hdraw Hport attrs. subst attrs.
  unfold send_message, client_status, payload_of.
  rewrite Hdraw, Hport.
  destruct (current_span w), (0 <? LATENCY_MS cfg); mstep.
  all: repeat (mcase; mstep); split; reflexivity.
Qed.
End SenderSizes.

Section SenderSizeRecords.
Import Sender.
Variable json_dumps : pyval -> string.
Variable urlparse : string -> ParseResult.
Variable status_error_str : Response -> string.
Variable cfg : Config.
Variable w : World.

Local Abbreviation send :=
  (send_message json_dumps urlparse status_error_str cfg w).

(** X23.  A run that issues the outbound call records the size of the
    serialized payload on the client request-size histogram, whatever the
    call gives, and the size of the content of the answer on the client
    response-size histogram whenever there is an answer with content,
    also when its status is not 2xx or its body does not parse; when the
    call raises, no response size is recorded.  Both records carry the
    attributes of the duration record. *)
Theorem send_client_body_sizes (data : option pydict) :
  call_issued (run (send data)).1 = true ->
  exists attrs duration,
    calls_on http_client_request_duration (run (send data)).1
    = [EvRecord http_client_request_duration duration attrs]
    /\ (json_dumps (payload_of cfg data) <> "" ->
        calls_on http_client_request_body_size (run (send data)).1
        = [EvRecord http_client_request_body_size
             (inject_Z (len (json_dumps (payload_of cfg data)))) attrs])
    /\ (forall response c,
          client_post w = inr response -> content response = Some c ->
          c <> "" ->
          calls_on http_client_response_body_size (run (send data)).1
          = [EvRecord http_client_response_body_size (inject_Z (len c))
               attrs])
    /\ (forall e, client_post w = inl e ->
          calls_on http_client_response_body_size (run (send data)).1 = []).
Proof.
  intros Hissued.
  apply call_issued_iff in Hissued as (Hdraw & p & Hport).
  destruct (send_forwarded_summary json_dumps urlparse status_error_str cfg w
              data p Hdraw Hport) as (_ & _ & Hduration).
  destruct (send_forwarded_sizes json_dumps urlparse status_error_str cfg w
              data p Hdraw Hport) as (Hreq & Hresp).
  eexists _, _. split; [exact Hduration|]. split; [|split].
  - intros Hne%str_truthy_ne%len_truthy%Z.ltb_lt. by rewrite Hreq, Hne.
  - intros response c Hpost Hc Hne%str_truthy_ne%len_truthy%Z.ltb_lt.
    by rewrite Hresp, Hpost, Hc, Hne.
  - intros e Hpost. by rewrite Hresp, Hpost.
Qed.
End SenderSizeRecords.

Lemma send_client_body_sizes_witness :
  exists attrs duration,
    calls_on http_client_request_duration
      (run (Sender.send_message Example.json_dumps Example.urlparse
              Example.status_error_str Example.sender_cfg
              Sample.world_unavailable Example.data)).1
    = [EvRecord http_client_request_duration duration attrs]
    /\ calls_on http_client_response_body_size
         (run (Sender.send_message Example.json_dumps Example.urlparse
                 Example.status_error_str Example.sender_cfg
                 Sample.world_unavailable Example.data)).1
       = [EvRecord http_client_response_body_size 11 attrs].
Proof.
  destruct (send_client_body_sizes Example.json_dumps Example.urlparse
              Example.status_error_str Example.sender_cfg
              Sample.world_unavailable Example.data)
    as (attrs & duration & Hd & _ & Hresp & _).
  - vm_compute. reflexivity.
  - exists attrs, duration. split; [exact Hd|].
    apply (Hresp Sample.response_unavailable "unavailable");
      [reflexivity|reflexivity|discriminate].
Defined.


(** ** Settings *)

Section SettingsFacts.
Import Settings.
Variable strip : string -> string.

Lemma set_and_not_blank_ne s : set_and_not_blank strip s = true -> s <> "".
Proof. unfold set_and_not_blank. by destruct s. Qed.

(** X14.  An endpoint given in OTEL_EXPORTER_OTLP_ENDPOINT that is not
    blank is the OTLP endpoint of the service, as it stands (not
    stripped), whatever NODE_IP and OTLP_PORT are set to. *)
Theorem otlp_endpoint_explicit_wins (env : gmap string string)
    (s ip port : string) :
  env !! "OTEL_EXPORTER_OTLP_ENDPOINT" = Some s ->
  set_and_not_blank strip s = true ->
  otlp_endpoint strip env = s
  /\ otlp_endpoint strip (<["NODE_IP" := ip]> env) = s
  /\ otlp_endpoint strip (<["OTLP_PORT" := port]> env) = s
  /\ otlp_endpoint strip (<["NODE_IP" := ip]> (<["OTLP_PORT" := port]> env))
     = s.
Proof.
  intros Hs Hset. unfold otlp_endpoint, getenv.
  rewrite !(lookup_insert_ne _ _ "OTEL_EXPORTER_OTLP_ENDPOINT") by done.
  rewrite Hs. cbn. by rewrite Hset.
Qed.

(** X15.  The OTLP endpoint of a service is never the empty string: it
    is the explicit endpoint, or a URL that starts with http://, built
    from NODE_IP and OTLP_PORT (4317 when that is not set) or the
    collector default. *)
Theorem otlp_endpoint_never_empty (env : gmap string string) :
  otlp_endpoint strip env <> ""
  /\ (otlp_endpoint strip env = getenv env "OTEL_EXPORTER_OTLP_ENDPOINT" ""
      \/ exists rest, otlp_endpoint strip env = "http://" +:+ rest)
  /\ (env !! "OTEL_EXPORTER_OTLP_ENDPOINT" = None ->
      forall ip, env !! "NODE_IP" = Some ip ->
                 set_and_not_blank strip ip = true ->
      otlp_endpoint strip env
      = "http://" +:+ ip +:+ ":" +:+ default "4317" (env !! "OTLP_PORT")).
Proof.
  unfold otlp_endpoint.
  split; [|split].
  - destruct (set_and_not_blank strip (getenv env _ "")) eqn:H1.
    + by apply set_and_not_blank_ne.
    + by destruct (set_and_not_blank strip (getenv env "NODE_IP" "")).
  - destruct (set_and_not_blank strip (getenv env _ "")) eqn:H1;
      [by left|right].
    destruct (set_and_not_blank strip (getenv env "NODE_IP" "")); eauto.
  - intros Hnone ip Hip Hset. unfold getenv. rewrite Hnone, Hip. cbn.
    by rewrite Hset.
Qed.

(** X16.  A blank OTEL_EXPORTER_OTLP_ENDPOINT is read differently by the
    services and by the load generator: the services pass it over and
    take the node address or the collector default, a URL that starts
    with http://; the load generator takes the blank value as its
    endpoint. *)
Theorem blank_endpoint_services_and_loadgen (env : gmap string string)
    (s : string) :
  env !! "OTEL_EXPORTER_OTLP_ENDPOINT" = Some s ->
  set_and_not_blank strip s = false ->
  loadgen_otlp_endpoint env = s
  /\ exists rest, otlp_endpoint strip env = "http://" +:+ rest.
Proof.
  intros Hs Hblank. unfold loadgen_otlp_endpoint, otlp_endpoint, getenv.
  rewrite Hs. cbn. rewrite Hblank. split; [done|].
  destruct (set_and_not_blank strip (default "" (env !! "NODE_IP"))); eauto.
Qed.
End SettingsFacts.

Lemma otlp_endpoint_explicit_wins_witness :
  Settings.otlp_endpoint Sample.strip
    (<["NODE_IP" := "10.0.0.7"]>
       {[ "OTEL_EXPORTER_OTLP_ENDPOINT" := " http://collector:4317" ]})
  = " http://collector:4317".
Proof.
  apply (otlp_endpoint_explicit_wins Sample.strip
           {[ "OTEL_EXPORTER_OTLP_ENDPOINT" := " http://collector:4317" ]}
           " http://collector:4317" "10.0.0.7" "4318").
  - reflexivity.
  - reflexivity.
Defined.

Lemma blank_endpoint_services_and_loadgen_witness :
  Settings.loadgen_otlp_endpoint Sample.env = " "
  /\ exists rest,
       Settings.otlp_endpoint Sample.strip Sample.env = "http://" +:+ rest.
Proof.
  apply (blank_endpoint_services_and_loadgen Sample.strip Sample.env " ").
  - reflexivity.
  - reflexivity.
Defined.

(** ** The log formatter *)

(** X17.  A log record with only one of the two ids is formatted as a
    record with none: when the span id is missing or empty, the trace id
    does not show in the line, and the other way round. *)
Theorem format_drops_lone_id (record : Formatter.LogRecord)
    (other : option string) :
  Formatter.span_id record = "" \/ Formatter.trace_id record = "" ->
  Formatter.trace_context record = ""
  /\ (Formatter.span_id record = "" ->
      Formatter.format
        {| Formatter.asctime := Formatter.asctime record;
           Formatter.name := Formatter.name record;
           Formatter.levelname := Formatter.levelname record;
           Formatter.message := Formatter.message record;
           Formatter.otelTraceID := other;
           Formatter.otelSpanID := Formatter.otelSpanID record |}
      = Formatter.format record)
  /\ (Formatter.trace_id record = "" ->
      Formatter.format
        {| Formatter.asctime := Formatter.asctime record;
           Formatter.name := Formatter.name record;
           Formatter.levelname := Formatter.levelname record;
           Formatter.message := Formatter.message record;
           Formatter.otelTraceID := Formatter.otelTraceID record;
           Formatter.otelSpanID := other |}
      = Formatter.format record).
Proof.
  intros H. unfold Formatter.format, Formatter.trace_context.
  split; [|split].
  - destruct H as [-> | ->]; cbn; [by rewrite andb_false_r|done].
  - intros Hs. cbn. unfold Formatter.span_id in *. cbn. rewrite Hs.
    cbn. by rewrite !andb_false_r.
  - intros Ht. cbn. unfold Formatter.trace_id in *. cbn. by rewrite Ht.
Qed.

Lemma format_drops_lone_id_witness :
  Formatter.format
    {| Formatter.asctime := "2024-01-01 00:00:00,000";
       Formatter.name := "app";
       Formatter.levelname := "INFO";
       Formatter.message := "Received request to send";
       Formatter.otelTraceID := Some "0af7651916cd43dd8448eb211c80319c";
       Formatter.otelSpanID := None |}
  = "2024-01-01 00:00:00,000 - app - INFO  - Received request to send".
Proof.
  pose proof (format_drops_lone_id
                {| Formatter.asctime := "2024-01-01 00:00:00,000";
                   Formatter.name := "app";
                   Formatter.levelname := "INFO";
                   Formatter.message := "Received request to send";
                   Formatter.otelTraceID := None;
                   Formatter.otelSpanID := None |}
                (Some "0af7651916cd43dd8448eb211c80319c")
                (or_introl eq_refl)) as (_ & H & _).
  etransitivity; [exact (H eq_refl)|reflexivity].
Defined.

(** ** The load generator *)

(** Settle an equivalence between outcomes by going through the cases of
    its two sides. *)
Ltac by_cases :=
  split; intros;
  repeat match goal with
         | H : _ \/ _ |- _ => destruct H
         | H : _ /\ _ |- _ => destruct H
         | H : ex _ |- _ => destruct H
         end;
  simplify_eq; try done; eauto.

Section LoadgenFacts.
Import Loadgen.
Variable type_name : exn -> string.
Variable w : World.

(** X18.  [DemoAppUser.send_message] marks the answer a success exactly
    when its status is 200 or 500; any other status is marked a failure
    "Unexpected status code" with the status; an exception of the client
    is raised again unchanged.  An ERROR line is logged on every run that
    ends neither in a success nor in a cancellation. *)
Theorem loadgen_mark_by_status :
  let answer := post w (PDict (payload w)) in
  let outcome := (run (send_message type_name w)).2 in
  let calls := (run (send_message type_name w)).1 in
  (outcome = inr success
   <-> exists sc, answer = inr sc /\ (sc = 200 \/ sc = 500))
  /\ (forall sc, answer = inr sc -> sc <> 200 -> sc <> 500 ->
        outcome = inr (failure ("Unexpected status code: " +:+ pretty sc)))
  /\ (forall e, answer = inl e -> outcome = inl e)
  /\ (logs_at ERROR calls = []
      <-> outcome = inr success \/ outcome = inl CancelledError).
Proof.
  intros answer outcome calls. subst answer outcome calls.
  unfold send_message.
  destruct (post w (PDict (payload w))) as [e|sc] eqn:Hpost; mstep.
  - destruct e; mstep.
    all: split; [split; [done|by intros (? & [=] & _)]|].
    all: split; [done|]. all: split; [by intros ? [= <-]|].
    all: by_cases.
  - destruct (sc =? 200) eqn:H200; mstep.
    { apply Z.eqb_eq in H200 as ->.
      split; [split; [eauto|done]|]. split; [by intros ? [= <-]|].
      split; [done|]. by_cases. }
    destruct (sc =? 500) eqn:H500; mstep.
    { apply Z.eqb_eq in H500 as ->.
      split; [split; [eauto|done]|]. split; [by intros ? [= <-]|].
      split; [done|]. by_cases. }
    apply Z.eqb_neq in H200, H500.
    split; [by_cases|].
    split; [by intros ? [= <-]|]. split; [done|]. by_cases.
Qed.

(** X19.  [WebsiteUser.send_message] logs an ERROR line under the same
    conditions, on every answer whose status is neither 200 nor 500 and
    on every exception that is no cancellation, and raises again what
    the client raised; it makes no other call. *)
Theorem website_user_logs_unexpected_status :
  let answer := post w (PDict (website_payload w)) in
  let outcome := (run (website_send_message type_name w)).2 in
  let calls := (run (website_send_message type_name w)).1 in
  outcome = match answer with inl e => inl e | inr _ => inr tt end
  /\ (logs_at ERROR calls = []
      <-> (exists sc, answer = inr sc /\ (sc = 200 \/ sc = 500))
          \/ answer = inl CancelledError)
  /\ (length calls <= 1)%nat.
Proof.
  intros answer outcome calls. subst answer outcome calls.
  unfold website_send_message.
  destruct (post w (PDict (website_payload w))) as [e|sc] eqn:Hpost; mstep.
  - destruct e; mstep.
    all: split; [done|]. all: split; [|cbn; lia].
    all: by_cases.
  - destruct (sc =? 200) eqn:H200; mstep.
    { apply Z.eqb_eq in H200 as ->.
      split; [done|]. split; [|cbn; lia]. by_cases. }
    destruct (sc =? 500) eqn:H500; mstep.
    { apply Z.eqb_eq in H500 as ->.
      split; [done|]. split; [|cbn; lia]. by_cases. }
    apply Z.eqb_neq in H200, H500.
    split; [done|]. split; [|cbn; lia]. by_cases.
Qed.
End LoadgenFacts.

(** ** The three programs in a row *)

Section Chain.
Variable json_dumps : pyval -> string.
Variable urlparse : string -> Sender.ParseResult.
Variable status_error_str : Sender.Response -> string.
Variable type_name : exn -> string.
Variable scfg rcfg : Config.
Variable wl : Loadgen.World.
Variable ws : Sender.World.
Variable wr : Receiver.World.

Local Abbreviation send :=
  (Sender.send_message json_dumps urlparse status_error_str scfg ws).

(** X20.  The load generator against the sender: when the status the
    load generator gets is the status of the sender's answer to its
    payload, a request on which the sender draws below its error rate is
    marked a success, a request that the sender forwards and the receiver
    answers well is marked a success, and a request whose outbound call
    fails with an [httpx.HTTPError] or is answered outside 2xx is marked
    a failure "Unexpected status code: 502". *)
Theorem loadgen_marks_sender_answers :
  Loadgen.post wl (PDict (Loadgen.payload wl))
  = inr (response_status (run (send (Some (Loadgen.payload wl)))).2) ->
  let mark := (run (Loadgen.send_message type_name wl)).2 in
  let draw_passes :=
    Qltb (Sender.random_random ws) (ERROR_RATE scfg) = false
    /\ exists p,
         Sender.port (urlparse (RECEIVER_SERVICE_URL scfg)) = inr p in
  (Qltb (Sender.random_random ws) (ERROR_RATE scfg) = true ->
   mark = inr Loadgen.success)
  /\ (draw_passes ->
      forall response v,
        Sender.client_post ws = inr response ->
        200 <= Sender.status_code response <= 299 ->
        Sender.json response = inr v ->
        mark = inr Loadgen.success)
  /\ (draw_passes ->
      (exists m, Sender.client_post ws = inl (HTTPError m))
      \/ (exists response,
            Sender.client_post ws = inr response
            /\ ~ (200 <= Sender.status_code response <= 299)) ->
      mark = inr (Loadgen.failure "Unexpected status code: 502")).
Proof.
  intros Hglue mark draw_passes. subst mark draw_passes.
  unfold Loadgen.send_message. rewrite Hglue. clear Hglue.
  split; [|split].
  - intros Hdraw.
    destruct (send_simulated_error json_dumps urlparse status_error_str scfg
                ws (Some (Loadgen.payload wl)) Hdraw) as (-> & _).
    reflexivity.
  - intros (Hdraw & p & Hport) response v Hpost Hsc Hjson.
    destruct (send_forwarded_summary json_dumps urlparse status_error_str
                scfg ws (Some (Loadgen.payload wl)) p Hdraw Hport)
      as (-> & _).
    unfold forward_outcome. rewrite Hpost, (is_2xx_true _ Hsc), Hjson.
    reflexivity.
  - intros (Hdraw & p & Hport) Hfail.
    destruct (send_forwarded_summary json_dumps urlparse status_error_str
                scfg ws (Some (Loadgen.payload wl)) p Hdraw Hport)
      as (-> & _).
    unfold forward_outcome.
    destruct Hfail as [(m & ->)|(response & -> & Hsc)]; [reflexivity|].
    rewrite (is_2xx_false _ Hsc). reflexivity.
Qed.

(** X21.  A request of the load generator, end to end: when the sender
    forwards it and the answer it gets is the answer of the receiver to
    the forwarded payload, on a request that the receiver completes, the
    body the sender returns carries under receiver_response the request
    id the load generator drew, the tenant id and the service name of the
    sender (not the tenant id of the receiver), and the service name of
    the receiver; the data the load generator sent is not part of it. *)
Theorem request_id_travels_end_to_end (forwarded : pydict)
    (response : Sender.Response) :
  Qltb (Sender.random_random ws) (ERROR_RATE scfg) = false ->
  (exists p, Sender.port (urlparse (RECEIVER_SERVICE_URL scfg)) = inr p) ->
  Sender.payload_of scfg (Some (Loadgen.payload wl)) = PDict forwarded ->
  Sender.client_post ws = inr response ->
  200 <= Sender.status_code response <= 299 ->
  Sender.json response = (run (Receiver.process_request rcfg wr forwarded)).2 ->
  Qltb (Receiver.random_random wr) (ERROR_RATE rcfg) = false ->
  Receiver.database_await wr = inr tt ->
  exists body,
    body_field (run (send (Some (Loadgen.payload wl)))).2 "receiver_response"
    = Some body
    /\ body_field (inr body) "request_id"
       = Some (PStr (Loadgen.request_id wl))
    /\ body_field (inr body) "tenant_id" = Some (PStr (TENANT_ID scfg))
    /\ body_field (inr body) "sender" = Some (PStr (SERVICE_NAME scfg))
    /\ body_field (inr body) "receiver" = Some (PStr (SERVICE_NAME rcfg))
    /\ body_field (inr body) "data" = None.
Proof.
  intros Hdraw (p & Hport) Hpayload Hpost Hsc Hjson Hrdraw Hawait.
  destruct (send_forwarded_summary json_dumps urlparse status_error_str
              scfg ws (Some (Loadgen.payload wl)) p Hdraw Hport) as (-> & _).
  destruct (process_completes rcfg wr forwarded Hrdraw Hawait) as (Hr & _).
  unfold forward_outcome. rewrite Hpost, (is_2xx_true _ Hsc), Hjson, Hr.
  injection Hpayload as <-.
  eexists. split; [reflexivity|]. repeat split; reflexivity.
Qed.
End Chain.

(** ** Health and metrics *)


Lemma loadgen_marks_sender_answers_witness :
  (run (Loadgen.send_message Sample.type_name Journey.loadgen_world)).2
  = inr Loadgen.success.
Proof.
  apply (loadgen_marks_sender_answers Example.json_dumps Example.urlparse
           Example.status_error_str Sample.type_name
           Example.failing_sender_cfg Journey.loadgen_world Example.world_ok).
  - reflexivity.
  - reflexivity.
Defined.

Lemma request_id_travels_end_to_end_witness :
  exists body,
    body_field
      (run (Sender.send_message Example.json_dumps Example.urlparse
              Example.status_error_str Example.sender_cfg
              Journey.sender_world
              (Some (Loadgen.payload Journey.loadgen_world)))).2
      "receiver_response" = Some body
    /\ body_field (inr body) "request_id" = Some (PStr "loadgen-4821")
    /\ body_field (inr body) "tenant_id" = Some (PStr "tenant-a").
Proof.
  destruct (request_id_travels_end_to_end Example.json_dumps Example.urlparse
              Example.status_error_str Example.sender_cfg
              Example.receiver_cfg Journey.loadgen_world Journey.sender_world
              Example.receiver_world Journey.forwarded Journey.response)
    as (body & H1 & H2 & H3 & _).
  - reflexivity.
  - exists (Some 8000). reflexivity.
  - reflexivity.
  - reflexivity.
  - vm_compute. split; discriminate.
  - reflexivity.
  - reflexivity.
  - reflexivity.
  - exists body. split; [exact H1|]. split; [exact H2|exact H3].
Defined.
